(** * A shallow embedding of [backend/main.py]

    The backend is a FastAPI application that chunks text, embeds the chunks
    through the Gemini embedding endpoint, stores them in Qdrant, retrieves the
    nearest chunks for a question and asks Gemini to answer from them.

    Conventions of the embedding:
    - Python [int] is [Z]; Python [str] is [string] (a sequence of characters,
      [String.length] is [len]); a Python [dict] with string keys is a
      [gmap string _]; [None] is [option].
    - A Python call that may raise returns a [result]; [Raise e] is the
      exception [e] propagating out of the call.
    - The external collaborators (the two Gemini endpoints, the Qdrant client,
      [uuid.uuid4], the rendering [str(e)] of an exception) are the fields of
      an [Env]; every call to one of the services is recorded in a trace,
      which is the only state threaded through the handlers, and the reply of
      a service may depend on the whole trace so far. *)

From Stdlib Require Import ZArith QArith Ascii Lia.
From stdpp Require Import base option list strings gmap pretty.

Local Open Scope string_scope.
Local Open Scope Z_scope.

(** ** Exceptions and results *)

Inductive exn : Type :=
| HTTPException (status_code : Z) (detail : string)
| ZeroDivisionError
| ValueError
| KeyError (key : string)
| IndexError
| TypeError
| AttributeError
| HTTPStatusError (status : Z)
| TransportError (msg : string)
| JSONDecodeError
| ValidationError
| ExternalError (msg : string).

Inductive result (A : Type) : Type :=
| Ok (a : A)
| Raise (e : exn).
Arguments Ok {A} a.
Arguments Raise {A} e.

#[global] Instance result_ret : MRet result := fun _ a => Ok a.
#[global] Instance result_bind : MBind result := fun _ _ f m =>
  match m with
  | Ok a => f a
  | Raise e => Raise e
  end.

(** ** Python arithmetic, [range] and slicing *)

(** The ceiling of the exact quotient [a / b]. *)
Definition ceil_div (a b : Z) : Z := - ((- a) / b).

(** A quotient of integers whose magnitude is at most [2^-1075], half the
    least positive double, is rounded to zero by the float division. *)
Definition underflow_bound : Z := 2 ^ 1075.

Definition rounds_to_zero (a b : Z) : bool :=
  Z.abs a * underflow_bound <=? Z.abs b.

(** [math.ceil(a / b)] on integers.  Python computes [a / b] as the double
    nearest to the exact quotient (ties to even) and [math.ceil] takes the
    ceiling of that double.  Dividing by zero raises.  A quotient that
    underflows gives [0.0] (or [-0.0]), whose ceiling is 0.  Otherwise, for
    [|a| < 2^53], the ceiling of the double is the ceiling of the exact
    quotient: the double is exact when the quotient is an integer, and else
    the quotient lies at least [1 / |b|] away from the integers around it,
    more than half the spacing of the doubles there.  The dividend is always
    the length of a text here; texts of [2^53] characters or more are not
    covered by this definition. *)
Definition py_ceil_truediv (a b : Z) : result Z :=
  if b =? 0 then Raise ZeroDivisionError
  else if rounds_to_zero a b then Ok 0
  else Ok (ceil_div a b).

(** [list(range(start, stop, step))] *)
Definition range_len (start stop step : Z) : nat :=
  if 0 <? step then Z.to_nat (ceil_div (stop - start) step)
  else Z.to_nat (ceil_div (start - stop) (- step)).

Definition py_range (start stop step : Z) : result (list Z) :=
  if step =? 0 then Raise ValueError
  else Ok (map (fun k => start + Z.of_nat k * step)
               (seq 0 (range_len start stop step))).

(** [s[i:j]]: negative indices count from the end, both are clamped. *)
Definition clamp_index (n k : Z) : Z :=
  if k <? 0 then Z.max 0 (k + n) else Z.min k n.

Definition py_slice (s : string) (i j : Z) : string :=
  let n := Z.of_nat (String.length s) in
  let lo := clamp_index n i in
  let hi := clamp_index n j in
  String.substring (Z.to_nat lo) (Z.to_nat (hi - lo)) s.

(** ** The chunker *)

Definition CHUNK_SIZE : Z := 5000.

Definition split_text_into_chunks (text : string) (chunk_size : Z)
  : result (list string) :=
  let text_length := Z.of_nat (String.length text) in
  num_chunks ← py_ceil_truediv text_length chunk_size;
  adjusted_chunk_size ← py_ceil_truediv text_length num_chunks;
  starts ← py_range 0 text_length adjusted_chunk_size;
  Ok (map (fun i => py_slice text i (i + adjusted_chunk_size)) starts).

(** ** Python string methods *)

Definition nl : string := String "010"%char "".

(** [sep.join(parts)] *)
Definition py_join (sep : string) (parts : list string) : string :=
  String.concat sep parts.

(** [str.lower] on the letters A-Z; no other character lowers to one of
    [.], [p], [d], [f], which is all [endswith(".pdf")] looks at. *)
Definition lower_ascii (c : ascii) : ascii :=
  let n := nat_of_ascii c in
  if ((65 <=? n)%nat && (n <=? 90)%nat)%bool then ascii_of_nat (n + 32) else c.

Fixpoint py_lower (s : string) : string :=
  match s with
  | EmptyString => EmptyString
  | String c rest => String (lower_ascii c) (py_lower rest)
  end.

Definition py_endswith (s suffix : string) : bool :=
  let n := String.length s in
  let m := String.length suffix in
  if (m <=? n)%nat then String.eqb (String.substring (n - m) m s) suffix
  else false.

(** [str.isspace] on one character, for the code points below 256. *)
Definition py_isspace (c : ascii) : bool :=
  let n := nat_of_ascii c in
  (((9 <=? n)%nat && (n <=? 13)%nat) || ((28 <=? n)%nat && (n <=? 32)%nat)
   || (n =? 133)%nat || (n =? 160)%nat)%bool.

Fixpoint py_lstrip (s : string) : string :=
  match s with
  | EmptyString => EmptyString
  | String c rest => if py_isspace c then py_lstrip rest else s
  end.

Definition py_strip (s : string) : string :=
  String.rev (py_lstrip (String.rev (py_lstrip s))).

(** Truth value of a [str]: the empty string is falsy. *)
Definition str_truthy (s : string) : bool := negb (String.eqb s "").

(** ** JSON values, as [response.json()] returns them *)

#[local] Set Warnings "-register-all".

Inductive json : Type :=
| JNull
| JBool (b : bool)
| JNum (q : Q)
| JStr (s : string)
| JArr (items : list json)
| JObj (fields : gmap string json).

(** [j[key]] for a string key *)
Definition json_getitem (j : json) (key : string) : result json :=
  match j with
  | JObj fields =>
      match fields !! key with
      | Some v => Ok v
      | None => Raise (KeyError key)
      end
  | _ => Raise TypeError
  end.

(** [j[0]] *)
Definition json_getitem0 (j : json) : result json :=
  match j with
  | JArr (x :: _) => Ok x
  | JArr [] => Raise IndexError
  | JStr (String c _) => Ok (JStr (String c ""))
  | JStr EmptyString => Raise IndexError
  | JObj _ => Raise (KeyError "0")
  | _ => Raise TypeError
  end.

(** [key in j] for a string key *)
Definition json_contains (key : string) (j : json) : result bool :=
  match j with
  | JObj fields => Ok (bool_decide (is_Some (fields !! key)))
  | JArr items =>
      Ok (existsb (fun x => match x with
                            | JStr s => String.eqb s key
                            | _ => false
                            end) items)
  | JStr s => Ok (bool_decide (is_Some (String.index 0 key s)))
  | _ => Raise TypeError
  end.

(** JSON [null] parses to Python's [None], the value a function also
    returns when it falls off its end. *)
Definition py_value (j : json) : option json :=
  match j with
  | JNull => None
  | _ => Some j
  end.

(** ** The HTTP client *)

(** What [await client.post(...)] does: it raises (no connection, time-out)
    or returns a response with a status code and a body, [None] when the
    body is not JSON. *)
Inductive post_outcome : Type :=
| PostRaises (e : exn)
| PostResponse (status : Z) (body : option json).

Record Response : Type := { status_code_of : Z; body_of : option json }.

Definition raise_for_status (r : Response) : result unit :=
  if ((200 <=? status_code_of r) && (status_code_of r <=? 299))%bool
  then Ok tt else Raise (HTTPStatusError (status_code_of r)).

Definition response_json (r : Response) : result json :=
  match body_of r with
  | Some j => Ok j
  | None => Raise JSONDecodeError
  end.

(** ** The vector store's data *)

Record Point : Type := {
  point_id : string;
  point_vector : option json;
  point_payload : gmap string string
}.

(** A search hit; the payload is optional in the client's type. *)
Record ScoredPoint : Type := {
  hit_id : string;
  hit_score : Q;
  hit_payload : option (gmap string string)
}.

(** ** Trace, environment and the handler monad *)

Inductive event : Type :=
| EvEmbedPost (text : string)
| EvGeneratePost (prompt : string)
| EvPrint (line : string)
| EvUuid4
| EvGetCollections
| EvRecreateCollection (name : string)
| EvUpsert (name : string) (p : Point)
| EvSearch (name : string) (vector : option json) (limit : Z).

(** The newest event is at the head. *)
Abbreviation trace := (list event).

Record Env : Type := {
  COLLECTION_NAME : string;
  str_exn : exn → string;
  embed_post : trace → string → post_outcome;
  generate_post : trace → string → post_outcome;
  uuid4 : trace → string;
  get_collections : trace → result (list string);
  recreate_collection : trace → string → result unit;
  PointStruct_validate : string → json → gmap string string → result unit;
  upsert : trace → string → Point → result unit;
  search : trace → string → option json → Z → result (list ScoredPoint)
}.

Definition M (A : Type) : Type := trace → result A * trace.

#[global] Instance M_ret : MRet M := fun _ a tr => (Ok a, tr).
#[global] Instance M_bind : MBind M := fun _ _ f m tr =>
  match m tr with
  | (Ok a, tr') => f a tr'
  | (Raise e, tr') => (Raise e, tr')
  end.

Definition raise {A} (e : exn) : M A := fun tr => (Raise e, tr).

Definition lift {A} (r : result A) : M A := fun tr => (r, tr).

(** [try: body except Exception as e: handler(e)] *)
Definition try_except {A} (body : M A) (handler : exn → M A) : M A :=
  fun tr =>
    match body tr with
    | (Ok a, tr') => (Ok a, tr')
    | (Raise e, tr') => handler e tr'
    end.

(** A call to a collaborator: its reply is computed from the trace before
    the call, and the call is recorded. *)
Definition call {A} (ev : event) (reply : trace → result A) : M A :=
  fun tr => (reply tr, ev :: tr).

Definition print (line : string) : M unit :=
  call (EvPrint line) (fun _ => Ok tt).

Definition post_result (o : post_outcome) : result Response :=
  match o with
  | PostRaises e => Raise e
  | PostResponse st body => Ok {| status_code_of := st; body_of := body |}
  end.

(** ** The handlers *)

(** [response.raise_for_status()] followed by
    [response.json()["embedding"]["values"]]. *)
Definition embedding_of_response (response : Response) : result json :=
  _ ← raise_for_status response;
  data ← response_json response;
  e ← json_getitem data "embedding";
  json_getitem e "values".

(** [PointStruct(id=.., vector=.., payload=..)]: the vector is a required
    field of the client's model, so [None] is refused by its validation;
    what else the validation refuses is left to the environment. *)
Definition PointStruct (env : Env) (id : string) (vector : option json)
    (payload : gmap string string) : result Point :=
  match vector with
  | None => Raise ValidationError
  | Some v =>
      _ ← PointStruct_validate env id v payload;
      Ok {| point_id := id; point_vector := vector; point_payload := payload |}
  end.

Section Handlers.
Context (env : Env).

(** [get_gemini_embedding]: every exception of the request is caught and
    printed; the function then falls off its end and returns [None]. *)
Definition get_gemini_embedding (text : string) : M (option json) :=
  try_except
    (response ← call (EvEmbedPost text)
                     (fun tr => post_result (embed_post env tr text));
     embedding ← lift (embedding_of_response response);
     mret (py_value embedding))
    (fun e => _ ← print (str_exn env e); mret None).

Record AddDocumentResponse : Type := { add_status : string; add_id : string }.

(** [add_document] *)
Definition add_document (content : string) : M AddDocumentResponse :=
  try_except
    (embedding ← get_gemini_embedding content;
     point_id ← call EvUuid4 (fun tr => Ok (uuid4 env tr));
     collection_names ← call EvGetCollections (get_collections env);
     _ ← (if bool_decide (COLLECTION_NAME env ∈ collection_names)
          then mret tt
          else
            _ ← print ("Collection '" +:+ COLLECTION_NAME env
                       +:+ "' not found. Creating...");
            _ ← call (EvRecreateCollection (COLLECTION_NAME env))
                     (fun tr => recreate_collection env tr (COLLECTION_NAME env));
            print ("Collection '" +:+ COLLECTION_NAME env
                   +:+ "' created successfully."));
     point ← lift (PointStruct env point_id embedding {[ "content" := content ]});
     _ ← call (EvUpsert (COLLECTION_NAME env) point)
              (fun tr => upsert env tr (COLLECTION_NAME env) point);
     mret {| add_status := "success"; add_id := point_id |})
    (fun e => raise (HTTPException 500
                       ("Error adding document: " +:+ str_exn env e))).

Record SearchResult : Type := {
  res_id : string;
  res_score : Q;
  res_content : string
}.

(** [hit.payload.get("content", "")] *)
Definition payload_content (hit : ScoredPoint) : result string :=
  match hit_payload hit with
  | None => Raise AttributeError
  | Some payload => Ok (default "" (payload !! "content"))
  end.

Definition hit_result (hit : ScoredPoint) : result SearchResult :=
  content ← payload_content hit;
  Ok {| res_id := hit_id hit; res_score := hit_score hit;
        res_content := content |}.

(** The list comprehension over the hits; it stops at the first hit
    whose payload cannot be read. *)
Fixpoint hit_results (hits : list ScoredPoint) : result (list SearchResult) :=
  match hits with
  | [] => Ok []
  | hit :: rest =>
      r ← hit_result hit;
      rs ← hit_results rest;
      Ok (r :: rs)
  end.

(** [search_document], the function body (called directly by
    [search_top_documents], and by the framework once the query
    parameters are validated). *)
Definition search_document (query : string) (limit : Z)
  : M (list SearchResult) :=
  try_except
    (embedding ← get_gemini_embedding query;
     search_result ← call (EvSearch (COLLECTION_NAME env) embedding limit)
                          (fun tr => search env tr (COLLECTION_NAME env)
                                       embedding limit);
     lift (hit_results search_result))
    (fun e => raise (HTTPException 500
                       ("Search failed: " +:+ str_exn env e))).

(** [search_top_documents] *)
Definition top_docs_of (results : list SearchResult) : list string :=
  map res_content (filter (fun doc => Is_true (str_truthy (res_content doc)))
                          results).

Definition search_top_documents (query : string) (limit : Z)
  : M (list string) :=
  try_except
    (search_response ← search_document query limit;
     mret (top_docs_of search_response))
    (fun e => raise (HTTPException 500
                       ("Document search failed: " +:+ str_exn env e))).

(** [chunk["candidates"][0]["content"]["parts"][0]["text"]] *)
Definition candidate_text (chunk : json) : result json :=
  candidates ← json_getitem chunk "candidates";
  first ← json_getitem0 candidates;
  content ← json_getitem first "content";
  parts ← json_getitem content "parts";
  part ← json_getitem0 parts;
  json_getitem part "text".

(** The comprehension of the streaming branch. *)
Fixpoint stream_texts (data : list json) : result (list json) :=
  match data with
  | [] => Ok []
  | chunk :: rest =>
      has ← json_contains "candidates" chunk;
      if has : bool then
        t ← candidate_text chunk;
        ts ← stream_texts rest;
        Ok (t :: ts)
      else stream_texts rest
  end.

(** [sep.join(items)] on Python values: every item must be a [str]. *)
Fixpoint json_strings (items : list json) : result (list string) :=
  match items with
  | [] => Ok []
  | JStr s :: rest => ss ← json_strings rest; Ok (s :: ss)
  | _ :: _ => Raise TypeError
  end.

Definition parse_answer (data : json) : result json :=
  match data with
  | JArr items =>
      chunks ← stream_texts items;
      texts ← json_strings chunks;
      Ok (JStr (py_join "" texts))
  | _ => candidate_text data
  end.

(** [generate_answer_with_gemini] *)
Definition generate_answer_with_gemini (user_prompt : string) : M json :=
  try_except
    (response ← call (EvGeneratePost user_prompt)
                     (fun tr => post_result (generate_post env tr user_prompt));
     _ ← lift (raise_for_status response);
     lift (data ← response_json response; parse_answer data))
    (fun e => raise (HTTPException 500
                       ("Gemini API call failed: " +:+ str_exn env e))).

Definition indent12 : string := "            ".

(** The prompt f-string. *)
Definition build_prompt (context_text question : string) : string :=
  "You are a helpful assistant. Use the following context to answer the question:"
  +:+ nl +:+ nl
  +:+ indent12 +:+ "Context:" +:+ nl
  +:+ indent12 +:+ context_text +:+ nl
  +:+ nl
  +:+ indent12 +:+ "Question:" +:+ nl
  +:+ indent12 +:+ question +:+ nl
  +:+ "           " +:+ nl
  +:+ indent12 +:+ "Guardrails:" +:+ nl
  +:+ indent12 +:+ "Answer should be less than 100 words." +:+ nl
  +:+ "        ".

Definition context_of (top_docs : list string) : string :=
  py_join (nl +:+ nl) top_docs.

Record Answer : Type := { ans_question : string; ans_answer : json }.

(** [ask_question] *)
Definition ask_question (question : string) : M Answer :=
  try_except
    (top_docs ← search_top_documents question 10;
     _ ← (match top_docs with
          | [] => raise (HTTPException 404 "No relevant documents found.")
          | _ :: _ => mret tt
          end);
     let context_text := context_of top_docs in
     _ ← print "context_text";
     _ ← print (py_slice context_text 0 100);
     let prompt := build_prompt context_text question in
     answer ← generate_answer_with_gemini prompt;
     mret {| ans_question := question; ans_answer := answer |})
    (fun e => raise (HTTPException 500
                       ("Answering failed: " +:+ str_exn env e))).

(** An uploaded file: its name, and what reading it, opening it as a PDF
    and extracting the text of its pages gives (the page texts, or the
    exception one of those steps raises). *)
Record UploadFile : Type := {
  filename : option string;
  pages : result (list string)
}.

Record ChunkResult : Type := { chunk_index : Z; chunk_id : string }.

Inductive FileReport : Type :=
| FileError (name : option string) (error : string)
| FileSuccess (name : option string) (chunks_uploaded : Z)
              (chunks : list ChunkResult).

(** The loop over [enumerate(chunks)], from index [idx] on. *)
Fixpoint upload_chunks (idx : Z) (chunks : list string)
  : M (list ChunkResult) :=
  match chunks with
  | [] => mret []
  | chunk :: rest =>
      result ← add_document chunk;
      let entry := {| chunk_index := idx; chunk_id := add_id result |} in
      entries ← upload_chunks (idx + 1) rest;
      mret (entry :: entries)
  end.

(** The body of the loop over the files: the report appended for [file]. *)
Definition upload_file (file : UploadFile) : M FileReport :=
  try_except
    (name ← (match filename file with
             | Some n => mret n
             | None => raise AttributeError
             end);
     if negb (py_endswith (py_lower name) ".pdf")
     then mret (FileError (filename file) "Only PDF files are supported.")
     else
       page_texts ← lift (pages file);
       let full_text := py_join "" page_texts in
       if negb (str_truthy (py_strip full_text))
       then mret (FileError (filename file) "No readable text found in PDF.")
       else
         chunks ← lift (split_text_into_chunks full_text CHUNK_SIZE);
         chunk_results ← upload_chunks 0 chunks;
         mret (FileSuccess (filename file)
                           (Z.of_nat (length chunk_results)) chunk_results))
    (fun e => mret (FileError (filename file) (str_exn env e))).

(** [upload_pdfs] *)
Fixpoint upload_pdfs (files : list UploadFile) : M (list FileReport) :=
  match files with
  | [] => mret []
  | file :: rest =>
      report ← upload_file file;
      reports ← upload_pdfs rest;
      mret (report :: reports)
  end.
End Handlers.

(** ** The HTTP surface *)

(** The status code the framework answers with. *)
Definition http_status {A} (r : result A) : Z :=
  match r with
  | Ok _ => 200
  | Raise (HTTPException status _) => status
  | Raise _ => 500
  end.

(** An integer query parameter declared as [Query(default, gt=.., le=..)]. *)
Record IntQuery : Type := { q_default : Z; q_gt : Z; q_le : Z }.

(** [None] is a request rejected by validation; an omitted parameter takes
    the default. *)
Definition validate_int_query (p : IntQuery) (raw : option Z) : option Z :=
  match raw with
  | None => Some (q_default p)
  | Some v => if ((q_gt p <? v) && (v <=? q_le p))%bool then Some v else None
  end.

Definition limit_query : IntQuery := {| q_default := 5; q_gt := 0; q_le := 50 |}.

Inductive reply (A : Type) : Type :=
| Invalid
| Handled (r : result A).
Arguments Invalid {A}.
Arguments Handled {A} r.

Definition reply_status {A} (r : reply A) : Z :=
  match r with
  | Invalid => 422
  | Handled r => http_status r
  end.

(** [GET /search_document?query=..&limit=..] *)
Definition search_document_endpoint (env : Env) (query : option string)
    (limit : option Z) (tr : trace) : reply (list SearchResult) * trace :=
  match query, validate_int_query limit_query limit with
  | Some q, Some l =>
      let '(r, tr') := search_document env q l tr in (Handled r, tr')
  | _, _ => (Invalid, tr)
  end.

(** [POST /ask_question]: [None] is a request whose body the framework does
    not accept as a [UserQuery] (for instance a body without ["question"]);
    it is rejected before the handler runs.  [Some question] is a body that
    validates, with its question. *)
Definition ask_question_endpoint (env : Env) (body : option string)
    (tr : trace) : reply Answer * trace :=
  match body with
  | Some question =>
      let '(r, tr') := ask_question env question tr in (Handled r, tr')
  | None => (Invalid, tr)
  end.

(** ** Auxiliary definitions used in the proofs *)

(** The string without its first [n] characters. *)
Fixpoint drop_str (n : nat) (s : string) : string :=
  match n, s with
  | O, _ => s
  | S n', EmptyString => EmptyString
  | S n', String _ s' => drop_str n' s'
  end.

(** The ways the embedding request can fail: the request itself raises,
    the status is not 2xx, the body is not JSON, or the body has no
    ["embedding"]["values"]. *)
Inductive embedding_failure : post_outcome → Prop :=
| failure_network e :
    embedding_failure (PostRaises e)
| failure_status status body :
    ¬ (200 ≤ status ≤ 299) →
    embedding_failure (PostResponse status body)
| failure_not_json status :
    embedding_failure (PostResponse status None)
| failure_malformed status data e :
    (x ← json_getitem data "embedding"; json_getitem x "values") = Raise e →
    embedding_failure (PostResponse status (Some data)).

(** What the vector store answers to the search a query leads to: the
    query is embedded first, then the store is asked. *)
Definition search_hits (env : Env) (query : string) (limit : Z) (tr : trace)
  : result (list ScoredPoint) :=
  let '(embedding, tr1) := get_gemini_embedding env query tr in
  match embedding with
  | Ok v => search env tr1 (COLLECTION_NAME env) v limit
  | Raise e => Raise e
  end.

Definition hit_content (hit : ScoredPoint) : string :=
  default "" (hit_payload hit ≫= (.!! "content")).

Definition is_generate (ev : event) : bool :=
  match ev with EvGeneratePost _ => true | _ => false end.

Definition is_upsert (ev : event) : bool :=
  match ev with EvUpsert _ _ => true | _ => false end.

Definition report_name (r : FileReport) : option string :=
  match r with
  | FileError name _ => name
  | FileSuccess name _ _ => name
  end.

(** The text of a file that reaches the chunker: the file has a name ending
    in [.pdf] (in any case), its pages could be read, and their text is not
    blank. *)
Definition file_text (file : UploadFile) (text : string) : Prop :=
  ∃ name page_texts,
    filename file = Some name ∧
    py_endswith (py_lower name) ".pdf" = true ∧
    pages file = Ok page_texts ∧
    text = py_join "" page_texts ∧
    str_truthy (py_strip text) = true.

(** The chunks are ingested one after the other, each by its own
    successful [add_document] started on the trace the previous one left;
    the entries pair the chunks' positions, counted from [idx], with the ids
    the calls returned. *)
Inductive chunks_ingested (env : Env)
  : Z → list string → trace → list ChunkResult → trace → Prop :=
| ingested_none idx tr :
    chunks_ingested env idx [] tr [] tr
| ingested_next idx chunk rest tr added tr1 entries tr2 :
    add_document env chunk tr = (Ok added, tr1) →
    chunks_ingested env (idx + 1) rest tr1 entries tr2 →
    chunks_ingested env idx (chunk :: rest) tr
      ({| chunk_index := idx; chunk_id := add_id added |} :: entries) tr2.

(** The outcomes of processing one file from the trace [tr] to the trace
    [tr']. *)
Inductive file_outcome (env : Env) (file : UploadFile) (tr : trace)
  : FileReport → trace → Prop :=
| outcome_rejected error :
    (** the file is refused before any chunk is ingested *)
    (∀ text, ¬ file_text file text) →
    file_outcome env file tr (FileError (filename file) error) tr
| outcome_chunk_failed text done chunk rest entries tr_mid e tr' :
    (** the chunks [done] were ingested, the [add_document] of [chunk]
        raised, and the run ends with the trace that call left: nothing is
        done for the chunks [rest] *)
    file_text file text →
    split_text_into_chunks text CHUNK_SIZE = Ok (done ++ chunk :: rest)%list →
    chunks_ingested env 0 done tr entries tr_mid →
    add_document env chunk tr_mid = (Raise e, tr') →
    file_outcome env file tr (FileError (filename file) (str_exn env e)) tr'
| outcome_success text text_chunks entries tr' :
    (** every chunk was ingested by its own [add_document]; the report
        counts the chunks and lists their ids, numbered from zero *)
    file_text file text →
    split_text_into_chunks text CHUNK_SIZE = Ok text_chunks →
    chunks_ingested env 0 text_chunks tr entries tr' →
    file_outcome env file tr
      (FileSuccess (filename file) (Z.of_nat (length text_chunks)) entries) tr'.

(** Was [text] sent to the embedding service? *)
Definition was_embedded (text : string) (tr : trace) : bool :=
  existsb (fun ev => match ev with
                     | EvEmbedPost t => String.eqb t text
                     | _ => false
                     end) tr.

Definition result_of_hit (hit : ScoredPoint) : SearchResult :=
  {| res_id := hit_id hit; res_score := hit_score hit;
     res_content := hit_content hit |}.

Definition has_payload (hit : ScoredPoint) : Prop := is_Some (hit_payload hit).

(** The events [add_document] adds between listing the collections and
    building the point: none when the collection is listed, else the two
    prints around the creation. *)
Definition ensure_events (env : Env) (names : list string) (tr : trace) : trace :=
  if bool_decide (COLLECTION_NAME env ∈ names) then tr
  else EvPrint ("Collection '" +:+ COLLECTION_NAME env
                +:+ "' created successfully.")
       :: EvRecreateCollection (COLLECTION_NAME env)
       :: EvPrint ("Collection '" +:+ COLLECTION_NAME env
                   +:+ "' not found. Creating...")
       :: tr.

(** The point [add_document] builds. *)
Definition stored_point (id : string) (vector : option json) (content : string)
  : Point :=
  {| point_id := id; point_vector := vector;
     point_payload := {[ "content" := content ]} |}.

Definition is_recreate (ev : event) : bool :=
  match ev with EvRecreateCollection _ => true | _ => false end.

(** The events that change the vector store. *)
Definition is_write (ev : event) : bool :=
  match ev with
  | EvUpsert _ _ | EvRecreateCollection _ => true
  | _ => false
  end.

(** The points handed to [upsert], newest first. *)
Definition upserts (tr : trace) : list Point :=
  omap (fun ev => match ev with EvUpsert _ p => Some p | _ => None end) tr.

(** A text made of whitespace only. *)
Fixpoint all_space (s : string) : bool :=
  match s with
  | EmptyString => true
  | String c rest => py_isspace c && all_space rest
  end.

(** A chunk of a generation response that carries the text [text]. *)
Definition carries_text (chunk : json) (text : string) : Prop :=
  json_contains "candidates" chunk = Ok true ∧
  candidate_text chunk = Ok (JStr text).

Definition candidate_chunk (text : string) : json :=
  JObj {[ "candidates" :=
            JArr [JObj {[ "content" :=
                            JObj {[ "parts" := JArr [JObj {[ "text" := JStr text ]}] ]} ]}] ]}.

(** ** Concrete environments for the examples *)

Definition example_str_exn (e : exn) : string :=
  match e with
  | HTTPException status detail => pretty status +:+ ": " +:+ detail
  | ZeroDivisionError => "division by zero"
  | ValueError => "range() arg 3 must not be zero"
  | KeyError key => "'" +:+ key +:+ "'"
  | IndexError => "list index out of range"
  | TypeError => "object is not subscriptable"
  | AttributeError => "'NoneType' object has no attribute"
  | HTTPStatusError status => "status " +:+ pretty status
  | TransportError msg => msg
  | JSONDecodeError => "Expecting value"
  | ValidationError => "1 validation error for PointStruct"
  | ExternalError msg => msg
  end.

Definition example_embedding : json :=
  JObj {[ "embedding" := JObj {[ "values" := JArr [JNum (1 # 2); JNum (1 # 4)] ]} ]}.

Definition example_generation : json :=
  JObj {[ "candidates" :=
            JArr [JObj {[ "content" :=
                            JObj {[ "parts" := JArr [JObj {[ "text" := JStr "an answer" ]}] ]} ]}] ]}.

(** Everything works; the store holds the given hits for every query. *)
Definition example_env (hits : list ScoredPoint) : Env := {|
  COLLECTION_NAME := "doc";
  str_exn := example_str_exn;
  embed_post := fun _ _ => PostResponse 200 (Some example_embedding);
  generate_post := fun _ _ => PostResponse 200 (Some example_generation);
  uuid4 := fun tr => "id-" +:+ pretty (length tr);
  get_collections := fun _ => Ok ["doc"];
  recreate_collection := fun _ _ => Ok tt;
  PointStruct_validate := fun _ _ _ => Ok tt;
  upsert := fun _ _ _ => Ok tt;
  search := fun _ _ _ _ => Ok hits
|}.

(** The embedding request answers as [outcome]; the rest works. *)
Definition embedding_env (outcome : post_outcome) : Env := {|
  COLLECTION_NAME := "doc";
  str_exn := example_str_exn;
  embed_post := fun _ _ => outcome;
  generate_post := generate_post (example_env []);
  uuid4 := uuid4 (example_env []);
  get_collections := get_collections (example_env []);
  recreate_collection := recreate_collection (example_env []);
  PointStruct_validate := PointStruct_validate (example_env []);
  upsert := upsert (example_env []);
  search := search (example_env [])
|}.

(** The store refuses the first upsert of a run and accepts the later ones. *)
Definition flaky_store_env : Env := {|
  COLLECTION_NAME := "doc";
  str_exn := example_str_exn;
  embed_post := embed_post (example_env []);
  generate_post := generate_post (example_env []);
  uuid4 := uuid4 (example_env []);
  get_collections := get_collections (example_env []);
  recreate_collection := recreate_collection (example_env []);
  PointStruct_validate := PointStruct_validate (example_env []);
  upsert := fun tr _ _ =>
    if existsb is_upsert tr then Ok tt else Raise (ExternalError "store unavailable");
  search := search (example_env [])
|}.

(** [s * n] *)
Fixpoint py_str_mul (s : string) (n : nat) : string :=
  match n with
  | O => ""
  | S n' => s +:+ py_str_mul s n'
  end.

Definition example_before : list ScoredPoint := [
  {| hit_id := "p1"; hit_score := (9 # 10)%Q;
     hit_payload := Some {[ "content" := "alpha" ]} |}
].

(** A hit whose payload has no ["content"] key. *)
Definition example_bare_hit : ScoredPoint :=
  {| hit_id := "p2"; hit_score := (8 # 10)%Q;
     hit_payload := Some {[ "source" := "notes.pdf" ]} |}.

Definition example_after : list ScoredPoint := [
  {| hit_id := "p3"; hit_score := (7 # 10)%Q;
     hit_payload := Some {[ "content" := "" ]} |};
  {| hit_id := "p4"; hit_score := (6 # 10)%Q;
     hit_payload := Some {[ "content" := "beta" ]} |}
].

Definition example_hits : list ScoredPoint :=
  (example_before ++ example_bare_hit :: example_after)%list.

(** A store without any collection yet; the rest works. *)
Definition fresh_store_env : Env := {|
  COLLECTION_NAME := "doc";
  str_exn := example_str_exn;
  embed_post := embed_post (example_env []);
  generate_post := generate_post (example_env []);
  uuid4 := uuid4 (example_env []);
  get_collections := fun _ => Ok [];
  recreate_collection := recreate_collection (example_env []);
  PointStruct_validate := PointStruct_validate (example_env []);
  upsert := upsert (example_env []);
  search := search (example_env [])
|}.

(** The generation service streams the given chunks. *)
Definition streaming_env (items : list json) : Env := {|
  COLLECTION_NAME := "doc";
  str_exn := example_str_exn;
  embed_post := embed_post (example_env []);
  generate_post := fun _ _ => PostResponse 200 (Some (JArr items));
  uuid4 := uuid4 (example_env []);
  get_collections := get_collections (example_env []);
  recreate_collection := recreate_collection (example_env []);
  PointStruct_validate := PointStruct_validate (example_env []);
  upsert := upsert (example_env []);
  search := search (example_env [])
|}.

(** A PDF whose text makes two chunks, and one whose text makes one. *)
Definition two_chunk_text : string :=
  py_str_mul "a" 2501 +:+ py_str_mul "b" 2500.

Definition two_chunk_file : UploadFile :=
  {| filename := Some "long.pdf"; pages := Ok [two_chunk_text] |}.

Definition one_chunk_file : UploadFile :=
  {| filename := Some "short.pdf"; pages := Ok ["hello "; "world"] |}.

Definition blank_file : UploadFile :=
  {| filename := Some "blank.PDF"; pages := Ok ["  "; nl] |}.

(** * Properties *)

(** ** Integer ceilings *)

Lemma ceil_div_spec (a b : Z) :
  0 < b → (ceil_div a b - 1) * b < a ∧ a ≤ ceil_div a b * b.
Proof.
  intros Hb. unfold ceil_div.
  pose proof (Z.div_mod (- a) b ltac:(lia)) as Hdm.
  pose proof (Z.mod_pos_bound (- a) b Hb) as Hmod.
  nia.
Qed.

Lemma ceil_div_unique (a b c : Z) :
  0 < b → (c - 1) * b < a → a ≤ c * b → ceil_div a b = c.
Proof.
  intros Hb Hlo Hhi.
  destruct (ceil_div_spec a b Hb) as [Hlo' Hhi']. nia.
Qed.

Lemma ceil_div_pos (a b : Z) : 0 < a → 0 < b → 0 < ceil_div a b.
Proof.
  intros Ha Hb. destruct (ceil_div_spec a b Hb) as [_ Hhi]. nia.
Qed.

Lemma ceil_div_zero (b : Z) : ceil_div 0 b = 0.
Proof. unfold ceil_div. by destruct b. Qed.

Lemma underflow_bound_large : 5000 < underflow_bound.
Proof. reflexivity. Qed.

(** Away from underflow the float division gives the exact ceiling. *)
Lemma py_ceil_truediv_exact (a b : Z) :
  0 < a → 0 < b → b < a * underflow_bound →
  py_ceil_truediv a b = Ok (ceil_div a b).
Proof.
  intros Ha Hb Hlt. unfold py_ceil_truediv, rounds_to_zero.
  destruct (Z.eqb_spec b 0) as [?|_]; [lia|].
  destruct (Z.leb_spec (Z.abs a * underflow_bound) (Z.abs b)) as [Hle|_];
    [|reflexivity].
  rewrite !Z.abs_eq in Hle by lia. lia.
Qed.

Lemma py_ceil_truediv_zero_dividend (b : Z) :
  b ≠ 0 → py_ceil_truediv 0 b = Ok 0.
Proof.
  intros Hb. unfold py_ceil_truediv, rounds_to_zero.
  destruct (Z.eqb_spec b 0) as [?|_]; [done|].
  destruct (Z.leb_spec (Z.abs 0 * underflow_bound) (Z.abs b)) as [_|Hlt];
    [reflexivity|].
  simpl in Hlt. lia.
Qed.

Lemma num_chunks_le_length (len chunk_size : Z) :
  0 < len → 0 < chunk_size → ceil_div len chunk_size ≤ len.
Proof.
  intros Hlen Hcs. destruct (ceil_div_spec len chunk_size Hcs) as [Hlo _]. nia.
Qed.

(** ** Substrings *)

Lemma substring_shift (n i m : nat) (s : string) :
  String.substring (n + i) m s = String.substring i m (drop_str n s).
Proof.
  revert s. induction n as [|n IH]; intros s; [reflexivity|].
  destruct s as [|c s]; simpl.
  - destruct i, m; reflexivity.
  - apply IH.
Qed.

Lemma substring_drop (m : nat) (s : string) :
  String.substring 0 m s +:+ drop_str m s = s.
Proof.
  revert s. induction m as [|m IH]; intros s.
  - destruct s; reflexivity.
  - destruct s as [|c s]; simpl; [reflexivity|].
    change (String c (String.substring 0 m s +:+ drop_str m s) = String c s).
    by rewrite IH.
Qed.

Lemma drop_str_length (n : nat) (s : string) :
  String.length (drop_str n s) = (String.length s - n)%nat.
Proof.
  revert s. induction n as [|n IH]; intros s; simpl; [lia|].
  destruct s as [|c s]; simpl; [reflexivity|]. apply IH.
Qed.

Lemma substring_length_le (n m : nat) (s : string) :
  (String.length (String.substring n m s) ≤ m)%nat.
Proof.
  revert n m. induction s as [|c s IH]; intros n m.
  - destruct n, m; simpl; lia.
  - destruct n as [|n].
    + destruct m as [|m]; simpl; [lia|]. specialize (IH O m). lia.
    + simpl. apply IH.
Qed.

Lemma substring_clip (n m : nat) (s : string) :
  String.substring n (Nat.min m (String.length s - n)) s = String.substring n m s.
Proof.
  revert n m. induction s as [|c s IH]; intros n m.
  - destruct n, m; reflexivity.
  - destruct n as [|n].
    + destruct m as [|m]; [reflexivity|]. simpl. f_equal.
      specialize (IH O m). by rewrite Nat.sub_0_r in IH.
    + simpl. apply IH.
Qed.

Lemma substring_whole (s : string) :
  String.substring 0 (String.length s) s = s.
Proof. induction s as [|c s IH]; simpl; [reflexivity|]. by rewrite IH. Qed.

Lemma length_zero_empty (s : string) : String.length s = O → s = "".
Proof. destruct s; [reflexivity | discriminate]. Qed.

Lemma append_empty_r (s : string) : s +:+ "" = s.
Proof.
  induction s as [|c s IH]; [reflexivity|].
  change (String c (s +:+ "") = String c s). by rewrite IH.
Qed.

Lemma join_empty_cons (x : string) (l : list string) :
  py_join "" (x :: l) = x +:+ py_join "" l.
Proof.
  unfold py_join. destruct l as [|y l]; simpl.
  - by rewrite append_empty_r.
  - reflexivity.
Qed.

(** Slicing a string into consecutive pieces of [step] characters and
    gluing the pieces together gives the string back. *)
Lemma concat_pieces (step cnt : nat) (s : string) :
  (String.length s ≤ cnt * step)%nat →
  py_join "" (map (fun k => String.substring (k * step) step s) (seq 0 cnt)) = s.
Proof.
  revert s. induction cnt as [|cnt IH]; intros s Hlen.
  - simpl in *. symmetry. apply length_zero_empty. lia.
  - rewrite <- cons_seq, <- seq_shift, map_cons, map_map, join_empty_cons.
    assert (Heq : map (fun k => String.substring (S k * step) step s) (seq 0 cnt)
                  = map (fun k => String.substring (k * step) step (drop_str step s))
                        (seq 0 cnt)).
    { apply map_ext. intros k. simpl. apply substring_shift. }
    rewrite Heq, IH; [apply substring_drop|].
    rewrite drop_str_length. lia.
Qed.

(** ** The chunker *)

Lemma py_slice_piece (text : string) (k : nat) (adj : Z) :
  0 < adj → Z.of_nat k * adj < Z.of_nat (String.length text) →
  py_slice text (0 + Z.of_nat k * adj) (0 + Z.of_nat k * adj + adj)
  = String.substring (k * Z.to_nat adj) (Z.to_nat adj) text.
Proof.
  intros Hadj Hlt. unfold py_slice, clamp_index.
  set (n := Z.of_nat (String.length text)) in *.
  assert (Hk : 0 ≤ Z.of_nat k * adj) by nia.
  destruct (Z.ltb_spec (0 + Z.of_nat k * adj) 0) as [?|_]; [lia|].
  destruct (Z.ltb_spec (0 + Z.of_nat k * adj + adj) 0) as [?|_]; [lia|].
  replace (Z.to_nat (Z.min (0 + Z.of_nat k * adj) n)) with (k * Z.to_nat adj)%nat
    by nia.
  replace (Z.to_nat (Z.min (0 + Z.of_nat k * adj + adj) n
                     - Z.min (0 + Z.of_nat k * adj) n))
    with (Nat.min (Z.to_nat adj) (String.length text - k * Z.to_nat adj))
    by (subst n; nia).
  apply substring_clip.
Qed.

(** On a non-empty text and a positive chunk size for which the first
    quotient does not underflow nothing raises, and the chunks are the
    consecutive pieces of the adjusted size. *)
Lemma split_nonempty (text : string) (chunk_size : Z) :
  text ≠ "" → 0 < chunk_size →
  chunk_size < Z.of_nat (String.length text) * underflow_bound →
  let len := Z.of_nat (String.length text) in
  let adj := ceil_div len (ceil_div len chunk_size) in
  0 < adj ∧
  split_text_into_chunks text chunk_size
  = Ok (map (fun k => String.substring (k * Z.to_nat adj) (Z.to_nat adj) text)
            (seq 0 (Z.to_nat (ceil_div len adj)))).
Proof.
  intros Hne Hcs Hbound len adj.
  assert (Hlen : 0 < len).
  { subst len. destruct text; [done | simpl; lia]. }
  assert (Hnum : 0 < ceil_div len chunk_size) by by apply ceil_div_pos.
  assert (Hadj : 0 < adj) by by apply ceil_div_pos.
  split; [done|].
  pose proof (num_chunks_le_length len chunk_size Hlen Hcs) as Hle.
  pose proof underflow_bound_large as Hlarge.
  unfold split_text_into_chunks. fold len.
  rewrite (py_ceil_truediv_exact len chunk_size) by done. simpl.
  rewrite (py_ceil_truediv_exact len (ceil_div len chunk_size)) by nia. simpl.
  fold adj. unfold py_range, range_len.
  destruct (Z.eqb_spec adj 0) as [?|_]; [lia|]. simpl.
  destruct (Z.ltb_spec 0 adj) as [_|?]; [|lia].
  rewrite Z.sub_0_r, map_map. f_equal.
  apply map_ext_in. intros k Hk. apply in_seq in Hk.
  apply py_slice_piece; [done|].
  destruct (ceil_div_spec len adj Hadj) as [Hlo _]. fold len. nia.
Qed.

(** The default chunk size is far from underflow on every non-empty text. *)
Lemma default_size_no_underflow (text : string) :
  text ≠ "" → CHUNK_SIZE < Z.of_nat (String.length text) * underflow_bound.
Proof.
  intros Hne. pose proof underflow_bound_large as Hlarge.
  assert (0 < Z.of_nat (String.length text))
    by (destruct text; [done | simpl; lia]).
  unfold CHUNK_SIZE. nia.
Qed.

Example split_abcdefg_3 :
  split_text_into_chunks "abcdefg" 3 = Ok ["abc"; "def"; "g"].
Proof. reflexivity. Qed.

Example split_abcdefgh_5 :
  split_text_into_chunks "abcdefgh" 5 = Ok ["abcd"; "efgh"].
Proof. reflexivity. Qed.

Lemma split_text_into_chunks_empty_raises (chunk_size : Z) :
  split_text_into_chunks "" chunk_size = Raise ZeroDivisionError.
Proof.
  unfold split_text_into_chunks. simpl String.length.
  change (Z.of_nat 0) with 0.
  destruct (Z.eq_dec chunk_size 0) as [->|Hcs]; [reflexivity|].
  by rewrite (py_ceil_truediv_zero_dividend chunk_size Hcs).
Qed.

(** C2, as stated, fails: the chunker is not total over all strings.  On the
    empty text with the default chunk size the number of chunks is zero and
    the adjusted chunk size divides by it, so the call raises instead of
    returning the empty sequence. *)
Lemma split_text_into_chunks_not_total :
  ¬ (∀ (text : string) (chunk_size : Z),
       0 < chunk_size →
       ∃ chunks,
         split_text_into_chunks text chunk_size = Ok chunks ∧
         (text = "" → chunks = [])).
Proof.
  intros Htotal.
  destruct (Htotal "" CHUNK_SIZE ltac:(done)) as (chunks & Hrun & _).
  rewrite split_text_into_chunks_empty_raises in Hrun. discriminate.
Qed.

(** C2, as the code has it: on every non-empty text, with every positive
    chunk size below [len * 2^1075] (where the quotient [len / chunk_size]
    does not underflow), the chunker returns without raising, and what it
    returns is not the empty sequence. *)
Theorem split_text_into_chunks_total_on_nonempty (text : string) (chunk_size : Z) :
  text ≠ "" → 0 < chunk_size →
  chunk_size < Z.of_nat (String.length text) * underflow_bound →
  ∃ chunks, split_text_into_chunks text chunk_size = Ok chunks ∧ chunks ≠ [].
Proof.
  intros Hne Hcs Hbound.
  destruct (split_nonempty text chunk_size Hne Hcs Hbound) as [Hadj Heq].
  eexists. split; [exact Heq|].
  set (len := Z.of_nat (String.length text)) in *.
  assert (Hlen : 0 < len).
  { subst len. destruct text; [done | simpl; lia]. }
  pose proof (ceil_div_pos len _ Hlen Hadj) as Hcnt.
  destruct (Z.to_nat (ceil_div len (ceil_div len (ceil_div len chunk_size))))
    eqn:Hn; [lia | done].
Qed.

Lemma split_text_into_chunks_total_on_nonempty_witness :
  ∃ chunks, split_text_into_chunks "abcdefg" 3 = Ok chunks ∧ chunks ≠ [].
Proof.
  apply (split_text_into_chunks_total_on_nonempty "abcdefg" 3);
    [discriminate | lia | reflexivity].
Defined.

(** The one caller only chunks a text that survived the blank-text check,
    so the chunker does not raise there. *)
Lemma split_text_into_chunks_after_blank_check (text : string) :
  negb (str_truthy (py_strip text)) = false →
  ∃ chunks, split_text_into_chunks text CHUNK_SIZE = Ok chunks.
Proof.
  intros Hcheck.
  assert (Hne : text ≠ "") by (intros ->; discriminate Hcheck).
  destruct (split_nonempty text CHUNK_SIZE Hne ltac:(done)
              (default_size_no_underflow text Hne)) as [_ Heq].
  eauto.
Qed.

(** With a chunk size so large that [len / chunk_size] underflows to [0.0]
    the number of chunks is zero and the second division raises. *)
Lemma split_huge_size_raises :
  split_text_into_chunks "abcdefg" (10 ^ 400) = Raise ZeroDivisionError.
Proof. vm_compute. reflexivity. Qed.

(** C5, as stated, fails: for the text "abcdefg" and the positive target
    size [10^400] the chunker raises, so there are no chunks to
    concatenate. *)
Lemma split_text_into_chunks_concat_fails_on_huge_size :
  ¬ (∀ (text : string) (chunk_size : Z),
       text ≠ "" → 0 < chunk_size →
       ∃ chunks,
         split_text_into_chunks text chunk_size = Ok chunks ∧
         py_join "" chunks = text ∧
         Forall (fun chunk =>
                   Z.of_nat (String.length chunk)
                   ≤ ceil_div (Z.of_nat (String.length text))
                       (ceil_div (Z.of_nat (String.length text)) chunk_size))
                chunks).
Proof.
  intros Hall.
  destruct (Hall "abcdefg" (10 ^ 400) ltac:(done) ltac:(done))
    as (chunks & Hrun & _).
  rewrite split_huge_size_raises in Hrun. discriminate.
Qed.

(** C5, as the code has it: on a non-empty text and a positive target size
    below [len * 2^1075] the chunker returns chunks whose concatenation, in
    order, is the text, and none of them is longer than
    [ceil(len / ceil(len / chunk_size))]. *)
Theorem split_text_into_chunks_concat_bound (text : string) (chunk_size : Z) :
  text ≠ "" → 0 < chunk_size →
  chunk_size < Z.of_nat (String.length text) * underflow_bound →
  ∃ chunks,
    split_text_into_chunks text chunk_size = Ok chunks ∧
    py_join "" chunks = text ∧
    Forall (fun chunk =>
              Z.of_nat (String.length chunk)
              ≤ ceil_div (Z.of_nat (String.length text))
                         (ceil_div (Z.of_nat (String.length text)) chunk_size))
           chunks.
Proof.
  intros Hne Hcs Hbound.
  destruct (split_nonempty text chunk_size Hne Hcs Hbound) as [Hadj Heq].
  set (len := Z.of_nat (String.length text)) in *.
  set (adj := ceil_div len (ceil_div len chunk_size)) in *.
  eexists. split; [exact Heq|]. split.
  - apply concat_pieces.
    destruct (ceil_div_spec len adj Hadj) as [_ Hhi]. subst len. nia.
  - apply Forall_forall. intros chunk Hin.
    apply list_elem_of_In, in_map_iff in Hin. destruct Hin as (k & <- & _).
    pose proof (substring_length_le (k * Z.to_nat adj) (Z.to_nat adj) text).
    lia.
Qed.

Lemma split_text_into_chunks_concat_bound_witness :
  ∃ chunks,
    split_text_into_chunks "abcdefg" 3 = Ok chunks ∧
    py_join "" chunks = "abcdefg" ∧
    Forall (fun chunk => Z.of_nat (String.length chunk) ≤ ceil_div 7 (ceil_div 7 3))
           chunks.
Proof.
  apply (split_text_into_chunks_concat_bound "abcdefg" 3); [discriminate | lia | reflexivity].
Defined.

(** C7, as stated, fails: the text "abcdefg" is shorter than the target
    size [10^400], yet the chunker raises instead of returning the text as
    one chunk. *)
Lemma split_text_into_chunks_short_fails_on_huge_size :
  ¬ (∀ (text : string) (chunk_size : Z),
       text ≠ "" → 0 < chunk_size →
       Z.of_nat (String.length text) ≤ chunk_size →
       split_text_into_chunks text chunk_size = Ok [text]).
Proof.
  intros Hall.
  pose proof (Hall "abcdefg" (10 ^ 400) ltac:(done) ltac:(done) ltac:(done))
    as Hrun.
  rewrite split_huge_size_raises in Hrun. discriminate.
Qed.

(** C7, as the code has it: a non-empty text no longer than the positive
    target size, the target size being below [len * 2^1075], comes back as
    exactly one chunk, the text itself. *)
Theorem split_text_into_chunks_short (text : string) (chunk_size : Z) :
  text ≠ "" → 0 < chunk_size →
  chunk_size < Z.of_nat (String.length text) * underflow_bound →
  Z.of_nat (String.length text) ≤ chunk_size →
  split_text_into_chunks text chunk_size = Ok [text].
Proof.
  intros Hne Hcs Hbound Hle.
  destruct (split_nonempty text chunk_size Hne Hcs Hbound) as [_ Heq].
  rewrite Heq. clear Heq.
  set (len := Z.of_nat (String.length text)) in *.
  assert (Hlen : 0 < len).
  { subst len. destruct text; [done | simpl; lia]. }
  assert (Hnum : ceil_div len chunk_size = 1) by (apply ceil_div_unique; lia).
  rewrite Hnum.
  assert (Hadj : ceil_div len 1 = len) by (apply ceil_div_unique; lia).
  rewrite Hadj.
  assert (Hcnt : ceil_div len len = 1) by (apply ceil_div_unique; lia).
  rewrite Hcnt. simpl. subst len. rewrite Nat2Z.id, substring_whole.
  reflexivity.
Qed.

Lemma split_text_into_chunks_short_witness :
  split_text_into_chunks "abc" 5 = Ok ["abc"].
Proof.
  apply (split_text_into_chunks_short "abc" 5); [discriminate | lia | reflexivity | simpl; lia].
Defined.

(** ** The embedding gateway *)

Lemma get_gemini_embedding_eq (env : Env) (text : string) (tr : trace) :
  get_gemini_embedding env text tr
  = match post_result (embed_post env tr text) ≫= embedding_of_response with
    | Ok v => (Ok (py_value v), EvEmbedPost text :: tr)
    | Raise e => (Ok None, EvPrint (str_exn env e) :: EvEmbedPost text :: tr)
    end.
Proof.
  unfold get_gemini_embedding, try_except, call, lift, print, call.
  unfold mbind, M_bind, mret, M_ret, mbind, result_bind.
  destruct (post_result (embed_post env tr text)) as [response|e];
    [|reflexivity].
  destruct (embedding_of_response response); reflexivity.
Qed.

(** The gateway never raises. *)
Lemma get_gemini_embedding_no_raise (env : Env) (text : string) (tr : trace) :
  ∃ v tr', get_gemini_embedding env text tr = (Ok v, tr').
Proof.
  rewrite get_gemini_embedding_eq.
  destruct (post_result (embed_post env tr text) ≫= embedding_of_response);
    eauto.
Qed.

Lemma embedding_failure_raises (o : post_outcome) :
  embedding_failure o →
  ∃ e, post_result o ≫= embedding_of_response = Raise e.
Proof.
  intros Hfail. destruct Hfail as [e|status body Hst|status|status data e He].
  - by exists e.
  - exists (HTTPStatusError status). simpl.
    unfold embedding_of_response, raise_for_status. simpl.
    destruct (Z.leb_spec 200 status), (Z.leb_spec status 299);
      simpl; try reflexivity. lia.
  - simpl. unfold embedding_of_response, raise_for_status. simpl.
    destruct ((200 <=? status) && (status <=? 299))%bool; simpl; eauto.
  - simpl. unfold embedding_of_response, raise_for_status. simpl.
    destruct ((200 <=? status) && (status <=? 299))%bool; simpl; eauto.
Qed.

(** C3: a failed embedding request is not surfaced as an error.  When the
    request raises, answers with a status outside 2xx, or answers with a body
    that is not JSON or lacks ["embedding"]["values"], the gateway prints the
    exception and returns [None] as an ordinary result. *)
Theorem get_gemini_embedding_failure_returns_None
    (env : Env) (text : string) (tr : trace) :
  embedding_failure (embed_post env tr text) →
  ∃ line,
    get_gemini_embedding env text tr
    = (Ok None, EvPrint line :: EvEmbedPost text :: tr).
Proof.
  intros Hfail. apply embedding_failure_raises in Hfail as [e He].
  rewrite get_gemini_embedding_eq, He. eauto.
Qed.

Lemma get_gemini_embedding_failure_returns_None_witness :
  ∃ line,
    get_gemini_embedding
      (embedding_env (PostRaises (TransportError "connection refused")))
      "hello" []
    = (Ok None, [EvPrint line; EvEmbedPost "hello"]).
Proof.
  apply (get_gemini_embedding_failure_returns_None
           (embedding_env (PostRaises (TransportError "connection refused")))
           "hello" []).
  simpl. apply failure_network.
Defined.

Example get_gemini_embedding_status_503 :
  get_gemini_embedding (embedding_env (PostResponse 503 None)) "hello" []
  = (Ok None, [EvPrint "status 503"; EvEmbedPost "hello"]).
Proof. reflexivity. Qed.

Example get_gemini_embedding_malformed :
  get_gemini_embedding (embedding_env (PostResponse 200 (Some (JObj ∅)))) "hello" []
  = (Ok None, [EvPrint "'embedding'"; EvEmbedPost "hello"]).
Proof. reflexivity. Qed.

Example get_gemini_embedding_ok :
  get_gemini_embedding (example_env []) "hello" []
  = (Ok (Some (JArr [JNum (1 # 2); JNum (1 # 4)])), [EvEmbedPost "hello"]).
Proof. reflexivity. Qed.

(** ** Search and retrieval *)

Lemma hit_results_ok (hits : list ScoredPoint) :
  Forall has_payload hits → hit_results hits = Ok (map result_of_hit hits).
Proof.
  induction 1 as [|hit hits [payload Hp] _ IH]; [reflexivity|].
  simpl. rewrite IH.
  unfold hit_result, payload_content, result_of_hit, hit_content.
  rewrite Hp. reflexivity.
Qed.

Lemma search_document_eq (env : Env) (query : string) (limit : Z) (tr : trace) :
  ∃ v tr1,
    get_gemini_embedding env query tr = (Ok v, tr1) ∧
    search_document env query limit tr
    = match search env tr1 (COLLECTION_NAME env) v limit ≫= hit_results with
      | Ok results =>
          (Ok results, EvSearch (COLLECTION_NAME env) v limit :: tr1)
      | Raise e =>
          (Raise (HTTPException 500 ("Search failed: " +:+ str_exn env e)),
           EvSearch (COLLECTION_NAME env) v limit :: tr1)
      end.
Proof.
  destruct (get_gemini_embedding_no_raise env query tr) as (v & tr1 & Hv).
  exists v, tr1. split; [done|].
  unfold search_document, try_except, call, lift, raise.
  unfold mbind, M_bind. rewrite Hv.
  destruct (search env tr1 (COLLECTION_NAME env) v limit) as [hits|e];
    [|reflexivity].
  simpl. destruct (hit_results hits); reflexivity.
Qed.

Lemma search_document_ok (env : Env) (query : string) (limit : Z) (tr : trace)
    (hits : list ScoredPoint) :
  search_hits env query limit tr = Ok hits →
  Forall has_payload hits →
  ∃ tr', search_document env query limit tr = (Ok (map result_of_hit hits), tr').
Proof.
  intros Hhits Hpay.
  destruct (search_document_eq env query limit tr) as (v & tr1 & Hv & Heq).
  unfold search_hits in Hhits. rewrite Hv in Hhits.
  rewrite Heq, Hhits. simpl. rewrite (hit_results_ok hits Hpay). eauto.
Qed.

Lemma search_top_documents_eq (env : Env) (query : string) (limit : Z)
    (tr : trace) :
  search_top_documents env query limit tr
  = match search_document env query limit tr with
    | (Ok results, tr') => (Ok (top_docs_of results), tr')
    | (Raise e, tr') =>
        (Raise (HTTPException 500
                  ("Document search failed: " +:+ str_exn env e)), tr')
    end.
Proof.
  unfold search_top_documents, try_except, raise. unfold mbind, M_bind.
  destruct (search_document env query limit tr) as [[results|e] tr'];
    reflexivity.
Qed.

Lemma str_truthy_nonempty (s : string) : Is_true (str_truthy s) ↔ s ≠ "".
Proof.
  unfold str_truthy. destruct (String.eqb_spec s ""); simpl; naive_solver.
Qed.

Lemma top_docs_of_hits (hits : list ScoredPoint) :
  top_docs_of (map result_of_hit hits)
  = filter (fun content => content ≠ "") (map hit_content hits).
Proof.
  unfold top_docs_of. induction hits as [|hit hits IH]; [reflexivity|].
  simpl. rewrite !filter_cons. simpl.
  destruct (decide (Is_true (str_truthy (hit_content hit)))) as [Ht|Ht],
           (decide (hit_content hit ≠ "")) as [Hn|Hn];
    rewrite str_truthy_nonempty in Ht; try done.
  - simpl. by rewrite IH.
Qed.

(** C6: when the store answers the query's search with hits, the retrieval
    pipeline returns their contents in the store's order, without the empty
    ones. *)
Theorem search_top_documents_filters_empty
    (env : Env) (query : string) (limit : Z) (tr : trace)
    (hits : list ScoredPoint) :
  search_hits env query limit tr = Ok hits →
  Forall has_payload hits →
  ∃ tr',
    search_top_documents env query limit tr
    = (Ok (filter (fun content => content ≠ "") (map hit_content hits)), tr').
Proof.
  intros Hhits Hpay.
  destruct (search_document_ok env query limit tr hits Hhits Hpay) as [tr' Hs].
  exists tr'. rewrite search_top_documents_eq, Hs. by rewrite top_docs_of_hits.
Qed.

Lemma example_hits_have_payload : Forall has_payload example_hits.
Proof. repeat constructor; by eexists. Qed.

Lemma search_top_documents_filters_empty_witness :
  ∃ tr',
    search_top_documents (example_env example_hits) "what is alpha?" 10 []
    = (Ok (filter (fun content => content ≠ "") (map hit_content example_hits)),
       tr').
Proof.
  apply (search_top_documents_filters_empty
           (example_env example_hits) "what is alpha?" 10 [] example_hits).
  - reflexivity.
  - repeat constructor; by eexists.
Defined.

(** C10: a hit whose payload has no ["content"] key stays in the results of
    [search_document], with the empty string as content, and contributes
    nothing to the contents handed to answer synthesis. *)
Theorem search_document_missing_content
    (env : Env) (query : string) (limit : Z) (tr : trace)
    (before after : list ScoredPoint) (hit : ScoredPoint)
    (payload : gmap string string) :
  search_hits env query limit tr = Ok (before ++ hit :: after)%list →
  Forall has_payload (before ++ hit :: after)%list →
  hit_payload hit = Some payload →
  payload !! "content" = None →
  ∃ results tr1 tr2,
    search_document env query limit tr = (Ok results, tr1) ∧
    length results = length (before ++ hit :: after)%list ∧
    results !! length before
    = Some {| res_id := hit_id hit; res_score := hit_score hit;
              res_content := "" |} ∧
    search_top_documents env query limit tr
    = (Ok (filter (fun content => content ≠ "")
                  (map hit_content (before ++ after)%list)), tr2).
Proof.
  intros Hhits Hpay Hp Hnone.
  destruct (search_document_ok env query limit tr _ Hhits Hpay) as [tr1 Hs].
  assert (Hc : hit_content hit = "").
  { unfold hit_content. rewrite Hp. simpl. by rewrite Hnone. }
  exists (map result_of_hit (before ++ hit :: after)%list), tr1, tr1.
  split; [done|]. split; [by rewrite length_map|]. split.
  - rewrite map_app. simpl.
    rewrite lookup_app_r by (rewrite length_map; lia).
    rewrite length_map, Nat.sub_diag. simpl.
    unfold result_of_hit. by rewrite Hc.
  - rewrite search_top_documents_eq, Hs, top_docs_of_hits.
    rewrite !map_app, !filter_app. simpl. rewrite filter_cons, Hc.
    destruct (decide ("" ≠ "")); done.
Qed.

Lemma search_document_missing_content_witness :
  ∃ results tr1 tr2,
    search_document (example_env example_hits) "what is alpha?" 5 []
    = (Ok results, tr1) ∧
    length results = length (example_before ++ example_bare_hit :: example_after)%list ∧
    results !! length example_before
    = Some {| res_id := hit_id example_bare_hit;
              res_score := hit_score example_bare_hit; res_content := "" |} ∧
    search_top_documents (example_env example_hits) "what is alpha?" 5 []
    = (Ok (filter (fun content => content ≠ "")
                  (map hit_content (example_before ++ example_after)%list)), tr2).
Proof.
  apply (search_document_missing_content
           (example_env example_hits) "what is alpha?" 5 []
           example_before example_after example_bare_hit
           {[ "source" := "notes.pdf" ]}).
  - reflexivity.
  - repeat constructor; by eexists.
  - reflexivity.
  - reflexivity.
Defined.

Example search_top_documents_example :
  fst (search_top_documents (example_env example_hits) "what is alpha?" 5 [])
  = Ok ["alpha"; "beta"].
Proof. reflexivity. Qed.

Example search_document_example :
  fst (search_document (example_env example_hits) "what is alpha?" 5 [])
  = Ok [ {| res_id := "p1"; res_score := (9 # 10)%Q; res_content := "alpha" |};
         {| res_id := "p2"; res_score := (8 # 10)%Q; res_content := "" |};
         {| res_id := "p3"; res_score := (7 # 10)%Q; res_content := "" |};
         {| res_id := "p4"; res_score := (6 # 10)%Q; res_content := "beta" |} ].
Proof. reflexivity. Qed.

(** A hit without any payload makes the whole search fail. *)
Example search_document_no_payload :
  fst (search_document
         (example_env [{| hit_id := "p0"; hit_score := (1 # 2)%Q;
                          hit_payload := None |}]) "q" 5 [])
  = Raise (HTTPException 500
             "Search failed: 'NoneType' object has no attribute").
Proof. reflexivity. Qed.

(** C9: a [/search_document] request with an integer [limit] is rejected by
    validation exactly when the limit is outside 1..50, and a request without
    [limit] is handled with the limit 5. *)
Theorem search_document_limit_bounds
    (env : Env) (query : string) (tr : trace) :
  (∀ limit : Z,
     fst (search_document_endpoint env (Some query) (Some limit) tr) = Invalid
     ↔ ¬ (1 ≤ limit ≤ 50)) ∧
  search_document_endpoint env (Some query) None tr
  = (Handled (fst (search_document env query 5 tr)),
     snd (search_document env query 5 tr)).
Proof.
  split.
  - intros limit. unfold search_document_endpoint, validate_int_query. simpl.
    destruct (Z.ltb_spec 0 limit), (Z.leb_spec limit 50); simpl;
      try (split; [lia | done]).
    destruct (search_document env query limit tr). simpl.
    split; [done | lia].
  - unfold search_document_endpoint. simpl.
    by destruct (search_document env query 5 tr).
Qed.

Example search_document_limit_0 :
  search_document_endpoint (example_env example_hits) (Some "q") (Some 0) []
  = (Invalid, []).
Proof. reflexivity. Qed.

Example search_document_limit_51 :
  search_document_endpoint (example_env example_hits) (Some "q") (Some 51) []
  = (Invalid, []).
Proof. reflexivity. Qed.

Example search_document_limit_50 :
  reply_status
    (fst (search_document_endpoint (example_env example_hits) (Some "q") (Some 50) []))
  = 200.
Proof. reflexivity. Qed.

(** ** Answer synthesis *)

Lemma generate_answer_with_gemini_trace (env : Env) (prompt : string)
    (tr : trace) :
  snd (generate_answer_with_gemini env prompt tr) = EvGeneratePost prompt :: tr.
Proof.
  unfold generate_answer_with_gemini, try_except, call, lift, raise.
  unfold mbind, M_bind.
  destruct (post_result (generate_post env tr prompt)) as [response|e];
    [|reflexivity].
  destruct (raise_for_status response); [|reflexivity].
  match goal with
  | |- context [match ?r with Ok _ => _ | Raise _ => _ end] => destruct r
  end; reflexivity.
Qed.

Lemma ask_question_eq (env : Env) (question : string) (tr : trace) :
  ask_question env question tr
  = match search_top_documents env question 10 tr with
    | (Raise e, tr1) =>
        (Raise (HTTPException 500 ("Answering failed: " +:+ str_exn env e)), tr1)
    | (Ok [], tr1) =>
        (Raise (HTTPException 500
                  ("Answering failed: "
                   +:+ str_exn env (HTTPException 404 "No relevant documents found."))),
         tr1)
    | (Ok top_docs, tr1) =>
        let context_text := context_of top_docs in
        let tr2 := EvPrint (py_slice context_text 0 100)
                   :: EvPrint "context_text" :: tr1 in
        match generate_answer_with_gemini env
                (build_prompt context_text question) tr2 with
        | (Ok answer, tr3) =>
            (Ok {| ans_question := question; ans_answer := answer |}, tr3)
        | (Raise e, tr3) =>
            (Raise (HTTPException 500 ("Answering failed: " +:+ str_exn env e)),
             tr3)
        end
    end.
Proof.
  unfold ask_question, try_except, raise, print, call.
  unfold mbind, M_bind, mret, M_ret.
  destruct (search_top_documents env question 10 tr) as [[top_docs|e] tr1];
    [|reflexivity].
  destruct top_docs as [|doc docs]; [reflexivity|].
  destruct (generate_answer_with_gemini env _ _) as [[answer|e] tr3];
    reflexivity.
Qed.

(** Retrieval only adds embedding, print and search events to the trace. *)
Lemma search_top_documents_trace (env : Env) (query : string) (limit : Z)
    (tr : trace) :
  filter (fun ev => Is_true (is_generate ev))
         (snd (search_top_documents env query limit tr))
  = filter (fun ev => Is_true (is_generate ev)) tr.
Proof.
  rewrite search_top_documents_eq.
  destruct (search_document_eq env query limit tr) as (v & tr1 & Hv & Heq).
  rewrite Heq.
  assert (Htr1 : filter (fun ev => Is_true (is_generate ev)) tr1
                 = filter (fun ev => Is_true (is_generate ev)) tr).
  { rewrite get_gemini_embedding_eq in Hv.
    destruct (post_result (embed_post env tr query) ≫= embedding_of_response);
      injection Hv as _ <-; reflexivity. }
  destruct (search env tr1 (COLLECTION_NAME env) v limit ≫= hit_results);
    simpl; rewrite filter_cons; simpl; exact Htr1.
Qed.

(** C1: when retrieval returns no documents, the 404 raised inside the
    handler's [try] is caught by its own [except Exception] and re-raised as
    a 500: the endpoint answers 500, not 404.  The generation service is not
    called. *)
Theorem ask_question_no_documents_gives_500
    (env : Env) (question : string) (tr tr1 : trace) :
  search_top_documents env question 10 tr = (Ok [], tr1) →
  ask_question_endpoint env (Some question) tr
  = (Handled (Raise (HTTPException 500
                       ("Answering failed: "
                        +:+ str_exn env
                              (HTTPException 404 "No relevant documents found.")))),
     tr1) ∧
  reply_status (fst (ask_question_endpoint env (Some question) tr)) = 500 ∧
  filter (fun ev => Is_true (is_generate ev))
         (snd (ask_question_endpoint env (Some question) tr))
  = filter (fun ev => Is_true (is_generate ev)) tr.
Proof.
  intros Hret.
  assert (Heq : ask_question_endpoint env (Some question) tr
                = (Handled (Raise (HTTPException 500
                       ("Answering failed: "
                        +:+ str_exn env
                              (HTTPException 404 "No relevant documents found.")))),
                   tr1)).
  { unfold ask_question_endpoint. rewrite ask_question_eq, Hret. reflexivity. }
  rewrite Heq. simpl. repeat split.
  pose proof (search_top_documents_trace env question 10 tr) as Htr.
  by rewrite Hret in Htr.
Qed.

Lemma ask_question_no_documents_gives_500_witness :
  ask_question_endpoint (example_env []) (Some "what is alpha?") []
  = (Handled (Raise (HTTPException 500
                       ("Answering failed: "
                        +:+ str_exn (example_env [])
                              (HTTPException 404 "No relevant documents found.")))),
     [EvSearch "doc" (Some (JArr [JNum (1 # 2); JNum (1 # 4)])) 10;
      EvEmbedPost "what is alpha?"]) ∧
  reply_status (fst (ask_question_endpoint (example_env []) (Some "what is alpha?") []))
  = 500 ∧
  filter (fun ev => Is_true (is_generate ev))
         (snd (ask_question_endpoint (example_env []) (Some "what is alpha?") []))
  = filter (fun ev => Is_true (is_generate ev)) [].
Proof.
  apply (ask_question_no_documents_gives_500 (example_env []) "what is alpha?" []).
  reflexivity.
Defined.

Example ask_question_no_documents_example :
  fst (ask_question (example_env []) "what is alpha?" [])
  = Raise (HTTPException 500
             "Answering failed: 404: No relevant documents found.").
Proof. reflexivity. Qed.

Lemma append_length (s1 s2 : string) :
  String.length (s1 +:+ s2) = (String.length s1 + String.length s2)%nat.
Proof.
  induction s1 as [|c s1 IH]; [reflexivity|].
  change (S (String.length (s1 +:+ s2))
          = S (String.length s1 + String.length s2)).
  by rewrite IH.
Qed.

Lemma py_join_length (sep : string) (parts : list string) :
  String.length (py_join sep parts)
  = (sum_list (map String.length parts)
     + String.length sep * (length parts - 1))%nat.
Proof.
  unfold py_join. induction parts as [|x parts IH]; [simpl; lia|].
  destruct parts as [|y parts].
  - simpl. lia.
  - change (String.concat sep (x :: y :: parts))
      with (x +:+ sep +:+ String.concat sep (y :: parts)).
    rewrite !append_length, IH. simpl. lia.
Qed.

(** C8: with a non-empty list of retrieved contents, the prompt sent to the
    generation service carries the contents joined by a blank line, in
    order, in full: its context block is as long as all the contents
    together plus two characters per separator. *)
Theorem ask_question_context_untruncated
    (env : Env) (question : string) (tr tr1 : trace) (top_docs : list string) :
  search_top_documents env question 10 tr = (Ok top_docs, tr1) →
  top_docs ≠ [] →
  snd (ask_question env question tr)
  = EvGeneratePost (build_prompt (py_join (nl +:+ nl) top_docs) question)
    :: EvPrint (py_slice (py_join (nl +:+ nl) top_docs) 0 100)
    :: EvPrint "context_text" :: tr1 ∧
  String.length (py_join (nl +:+ nl) top_docs)
  = (sum_list (map String.length top_docs) + 2 * (length top_docs - 1))%nat.
Proof.
  intros Hret Hne. split.
  - rewrite ask_question_eq, Hret.
    destruct top_docs as [|doc docs]; [done|].
    cbv zeta. fold (context_of (doc :: docs)).
    pose proof (generate_answer_with_gemini_trace env
                  (build_prompt (context_of (doc :: docs)) question)
                  (EvPrint (py_slice (context_of (doc :: docs)) 0 100)
                   :: EvPrint "context_text" :: tr1)) as Hg.
    destruct (generate_answer_with_gemini env _ _) as [[answer|e] tr3];
      simpl in *; by rewrite Hg.
  - by rewrite py_join_length.
Qed.

Lemma ask_question_context_untruncated_witness :
  snd (ask_question (example_env example_hits) "what is alpha?" [])
  = EvGeneratePost
      (build_prompt (py_join (nl +:+ nl) ["alpha"; "beta"]) "what is alpha?")
    :: EvPrint (py_slice (py_join (nl +:+ nl) ["alpha"; "beta"]) 0 100)
    :: EvPrint "context_text"
    :: [EvSearch "doc" (Some (JArr [JNum (1 # 2); JNum (1 # 4)])) 10;
        EvEmbedPost "what is alpha?"] ∧
  String.length (py_join (nl +:+ nl) ["alpha"; "beta"])
  = (sum_list (map String.length ["alpha"; "beta"])
     + 2 * (length ["alpha"; "beta"] - 1))%nat.
Proof.
  apply (ask_question_context_untruncated
           (example_env example_hits) "what is alpha?" []
           [EvSearch "doc" (Some (JArr [JNum (1 # 2); JNum (1 # 4)])) 10;
            EvEmbedPost "what is alpha?"]
           ["alpha"; "beta"]).
  - reflexivity.
  - discriminate.
Defined.

Example ask_question_example :
  fst (ask_question (example_env example_hits) "what is alpha?" [])
  = Ok {| ans_question := "what is alpha?"; ans_answer := JStr "an answer" |}.
Proof. reflexivity. Qed.

(** ** Bulk upload *)

Lemma upload_chunks_ok (env : Env) (chunks : list string) (idx : Z)
    (tr tr' : trace) (entries : list ChunkResult) :
  upload_chunks env idx chunks tr = (Ok entries, tr') →
  length entries = length chunks ∧
  map chunk_index entries
  = map (fun k => idx + Z.of_nat k) (seq 0 (length chunks)).
Proof.
  revert idx tr tr' entries.
  induction chunks as [|chunk chunks IH]; intros idx tr tr' entries Hrun.
  - injection Hrun as <- _. done.
  - simpl in Hrun. unfold mbind, M_bind in Hrun.
    destruct (add_document env chunk tr) as [[added|e] tr1]; [|done].
    destruct (upload_chunks env (idx + 1) chunks tr1) as [[rest|e] tr2] eqn:Hrest;
      [|done].
    injection Hrun as <- _.
    destruct (IH _ _ _ _ Hrest) as [Hlen Hidx].
    split; [simpl; by rewrite Hlen|].
    simpl. rewrite Hidx, <- seq_shift, map_map, Z.add_0_r. f_equal.
    apply map_ext. intros k. lia.
Qed.

(** When ingesting a chunk fails, the chunks after it are not attempted:
    the loop stops with the trace the failing [add_document] left. *)
Lemma upload_chunks_stops (env : Env) (chunk : string) (rest : list string)
    (idx : Z) (tr tr' : trace) (e : exn) :
  add_document env chunk tr = (Raise e, tr') →
  upload_chunks env idx (chunk :: rest) tr = (Raise e, tr').
Proof.
  intros Hfail. simpl. unfold mbind, M_bind. by rewrite Hfail.
Qed.

(** A chunk loop that returns has ingested every chunk. *)
Lemma upload_chunks_ingested (env : Env) (chunks : list string) (idx : Z)
    (tr tr' : trace) (entries : list ChunkResult) :
  upload_chunks env idx chunks tr = (Ok entries, tr') →
  chunks_ingested env idx chunks tr entries tr'.
Proof.
  revert idx tr tr' entries.
  induction chunks as [|chunk chunks IH]; intros idx tr tr' entries Hrun.
  - injection Hrun as <- <-. constructor.
  - simpl in Hrun. unfold mbind, M_bind in Hrun.
    destruct (add_document env chunk tr) as [[added|e] tr1] eqn:Hadd; [|done].
    destruct (upload_chunks env (idx + 1) chunks tr1) as [[rest|e] tr2] eqn:Hrest;
      [|done].
    injection Hrun as <- <-.
    exact (ingested_next env idx chunk chunks tr added tr1 rest tr2 Hadd
             (IH _ _ _ _ Hrest)).
Qed.

(** A chunk loop that raises has ingested the chunks before the failing
    one and stopped at it. *)
Lemma upload_chunks_raise (env : Env) (chunks : list string) (idx : Z)
    (tr tr' : trace) (e : exn) :
  upload_chunks env idx chunks tr = (Raise e, tr') →
  ∃ done chunk rest entries tr_mid,
    chunks = (done ++ chunk :: rest)%list ∧
    chunks_ingested env idx done tr entries tr_mid ∧
    add_document env chunk tr_mid = (Raise e, tr').
Proof.
  revert idx tr.
  induction chunks as [|chunk chunks IH]; intros idx tr Hrun; [done|].
  simpl in Hrun. unfold mbind, M_bind in Hrun.
  destruct (add_document env chunk tr) as [[added|e0] tr1] eqn:Hadd.
  - destruct (upload_chunks env (idx + 1) chunks tr1) as [[more|e1] tr2] eqn:Hrest;
      [done|].
    injection Hrun as -> ->.
    destruct (IH _ _ Hrest) as (done & c & rest & entries & tr_mid & -> & Hd & Hc).
    exists (chunk :: done), c, rest,
      ({| chunk_index := idx; chunk_id := add_id added |} :: entries), tr_mid.
    split; [done|]. split; [|done].
    exact (ingested_next env idx chunk done tr added tr1 entries tr_mid Hadd Hd).
  - injection Hrun as -> ->.
    exists [], chunk, chunks, [], tr. split; [done|]. split; [constructor|done].
Qed.

(** The body of the loop over the files never raises, and what it reports
    is one of the three outcomes. *)
Lemma upload_file_report (env : Env) (file : UploadFile) (tr : trace) :
  ∃ report tr',
    upload_file env file tr = (Ok report, tr') ∧
    file_outcome env file tr report tr'.
Proof.
  unfold upload_file, try_except, raise, lift.
  unfold mbind, M_bind, mret, M_ret.
  destruct (filename file) as [name|] eqn:Hname.
  2: { eexists _, _. split; [reflexivity|]. rewrite <- Hname.
       apply outcome_rejected. intros text (n & ? & Hn & _). congruence. }
  destruct (py_endswith (py_lower name) ".pdf") eqn:Hpdf; simpl.
  2: { eexists _, _. split; [reflexivity|]. rewrite <- Hname.
       apply outcome_rejected. intros text (n & ? & Hn & Hp & _). congruence. }
  destruct (pages file) as [page_texts|e] eqn:Hpages.
  2: { eexists _, _. split; [reflexivity|]. rewrite <- Hname.
       apply outcome_rejected. intros text (? & ? & _ & _ & Hp & _). congruence. }
  destruct (str_truthy (py_strip (py_join "" page_texts))) eqn:Hblank; simpl.
  2: { eexists _, _. split; [reflexivity|]. rewrite <- Hname.
       apply outcome_rejected.
       intros text (? & ? & _ & _ & Hp & -> & Ht). congruence. }
  assert (Htext : file_text file (py_join "" page_texts))
    by (by exists name, page_texts).
  destruct (split_text_into_chunks_after_blank_check (py_join "" page_texts))
    as [text_chunks Hsplit]; [by rewrite Hblank|].
  rewrite Hsplit.
  destruct (upload_chunks env 0 text_chunks tr) as [[entries|e] tr'] eqn:Hup.
  - eexists _, _. split; [reflexivity|].
    destruct (upload_chunks_ok env _ _ _ _ _ Hup) as [Hlen _].
    rewrite Hlen, <- Hname.
    exact (outcome_success env file tr _ _ _ _ Htext Hsplit
             (upload_chunks_ingested env _ _ _ _ _ Hup)).
  - eexists _, _. split; [reflexivity|].
    destruct (upload_chunks_raise env _ _ _ _ _ Hup)
      as (done & chunk & rest & ents & tr_mid & -> & Hd & Hc).
    rewrite <- Hname.
    exact (outcome_chunk_failed env file tr _ _ _ _ _ _ _ _ Htext Hsplit Hd Hc).
Qed.

(** The converse for a failing chunk: when the chunks before it are
    ingested and its own [add_document] raises, the loop raises there. *)
Lemma upload_chunks_fails_at (env : Env) (done rest : list string)
    (chunk : string) (idx : Z) (tr tr_mid tr' : trace)
    (entries : list ChunkResult) (e : exn) :
  chunks_ingested env idx done tr entries tr_mid →
  add_document env chunk tr_mid = (Raise e, tr') →
  upload_chunks env idx (done ++ chunk :: rest)%list tr = (Raise e, tr').
Proof.
  intros Hdone Hfail.
  induction Hdone as [idx tr|idx c cs tr added tr1 entries tr2 Hadd _ IH].
  - simpl. unfold mbind, M_bind. by rewrite Hfail.
  - simpl. unfold mbind, M_bind. rewrite Hadd.
    by rewrite (IH Hfail).
Qed.

(** A file one of whose chunks fails is reported with that failure, and the
    processing of the file ends with the failing call. *)
Lemma upload_file_chunk_failure (env : Env) (file : UploadFile) (text : string)
    (done rest : list string) (chunk : string) (tr tr_mid tr' : trace)
    (entries : list ChunkResult) (e : exn) :
  file_text file text →
  split_text_into_chunks text CHUNK_SIZE = Ok (done ++ chunk :: rest)%list →
  chunks_ingested env 0 done tr entries tr_mid →
  add_document env chunk tr_mid = (Raise e, tr') →
  upload_file env file tr
  = (Ok (FileError (filename file) (str_exn env e)), tr').
Proof.
  intros (name & page_texts & Hname & Hpdf & Hpages & -> & Htruthy)
    Hsplit Hdone Hfail.
  unfold upload_file, try_except, raise, lift.
  unfold mbind, M_bind, mret, M_ret.
  rewrite Hname, Hpdf, Hpages. simpl. rewrite Htruthy. simpl.
  rewrite Hsplit. simpl.
  by rewrite (upload_chunks_fails_at env done rest chunk 0 tr tr_mid tr'
                entries e Hdone Hfail).
Qed.

Lemma upload_pdfs_reports (env : Env) (files : list UploadFile) (tr : trace) :
  ∃ reports tr',
    upload_pdfs env files tr = (Ok reports, tr') ∧
    length reports = length files.
Proof.
  revert tr. induction files as [|file files IH]; intros tr.
  - by eexists _, _.
  - destruct (upload_file_report env file tr) as (report & tr1 & Hfile & _).
    destruct (IH tr1) as (reports & tr2 & Hrest & Hlen).
    exists (report :: reports), tr2. simpl. unfold mbind, M_bind.
    rewrite Hfile, Hrest. split; [reflexivity | simpl; by rewrite Hlen].
Qed.

Lemma upload_pdfs_app (env : Env) (files1 files2 : list UploadFile)
    (tr tr1 tr2 : trace) (reports1 reports2 : list FileReport) :
  upload_pdfs env files1 tr = (Ok reports1, tr1) →
  upload_pdfs env files2 tr1 = (Ok reports2, tr2) →
  upload_pdfs env (files1 ++ files2)%list tr
  = (Ok (reports1 ++ reports2)%list, tr2).
Proof.
  revert tr reports1.
  induction files1 as [|file files1 IH]; intros tr reports1 H1 H2.
  - injection H1 as <- <-. exact H2.
  - simpl in H1 |- *. unfold mbind, M_bind in H1 |- *.
    destruct (upload_file env file tr) as [[report|e] tr0]; [|done].
    destruct (upload_pdfs env files1 tr0) as [[reports|e] tr0'] eqn:Hrest;
      [|done].
    injection H1 as <- <-.
    by rewrite (IH _ _ Hrest H2).
Qed.

(** C4, as the code has it: whatever happened to the files before it
    (including a failure while ingesting one of their chunks), the file at
    any position of the list is processed by the loop body and gets its own
    report at the same position of the answer.  The report is a success
    summary only when every chunk of the file's text was ingested by its
    own [add_document]; it then counts the chunks and lists the ids those
    calls returned.  The first chunk whose [add_document] raises ends its
    file: the file is reported with that exception's text and nothing is done
    for its later chunks. *)
Theorem upload_pdfs_per_file_report
    (env : Env) (earlier later : list UploadFile) (file : UploadFile)
    (tr : trace) :
  ∃ reports1 report reports2 tr1 tr2 tr3,
    upload_pdfs env earlier tr = (Ok reports1, tr1) ∧
    length reports1 = length earlier ∧
    upload_file env file tr1 = (Ok report, tr2) ∧
    file_outcome env file tr1 report tr2 ∧
    (∀ text done chunk rest entries tr_mid e tr',
       file_text file text →
       split_text_into_chunks text CHUNK_SIZE = Ok (done ++ chunk :: rest)%list →
       chunks_ingested env 0 done tr1 entries tr_mid →
       add_document env chunk tr_mid = (Raise e, tr') →
       report = FileError (filename file) (str_exn env e) ∧ tr2 = tr') ∧
    upload_pdfs env later tr2 = (Ok reports2, tr3) ∧
    length reports2 = length later ∧
    upload_pdfs env (earlier ++ file :: later)%list tr
    = (Ok (reports1 ++ report :: reports2)%list, tr3).
Proof.
  destruct (upload_pdfs_reports env earlier tr) as (reports1 & tr1 & H1 & Hl1).
  destruct (upload_file_report env file tr1) as (report & tr2 & Hf & Hfit).
  destruct (upload_pdfs_reports env later tr2) as (reports2 & tr3 & H2 & Hl2).
  exists reports1, report, reports2, tr1, tr2, tr3.
  split; [done|]. split; [done|]. split; [done|]. split; [done|]. split.
  { intros text done chunk rest entries tr_mid e tr' Htext Hsplit Hdone Hfail.
    rewrite (upload_file_chunk_failure env file text done rest chunk
               tr1 tr_mid tr' entries e Htext Hsplit Hdone Hfail) in Hf.
    by injection Hf as <- <-. }
  split; [done|]. split; [done|].
  apply (upload_pdfs_app env earlier (file :: later) tr tr1 tr3); [done|].
  simpl. unfold mbind, M_bind. by rewrite Hf, H2.
Qed.

Lemma upload_pdfs_per_file_report_witness :
  fst (upload_file flaky_store_env two_chunk_file [])
  = Ok (FileError (Some "long.pdf")
          "500: Error adding document: store unavailable").
Proof.
  destruct (upload_pdfs_per_file_report flaky_store_env [] [one_chunk_file]
              two_chunk_file [])
    as (reports1 & report & reports2 & tr1 & tr2 & tr3
        & Hearlier & _ & Hfile & _ & Hfailure & _).
  injection Hearlier as <- <-.
  rewrite Hfile.
  edestruct (Hfailure two_chunk_text [] (py_str_mul "a" 2501)
               [py_str_mul "b" 2500] [] []) as [-> _].
  - exists "long.pdf", [two_chunk_text]. repeat split; vm_compute; reflexivity.
  - vm_compute. reflexivity.
  - constructor.
  - vm_compute. reflexivity.
  - reflexivity.
Defined.

(** C4, as stated, fails: the first chunk of [long.pdf] is refused by the
    store, the second chunk is then never sent to the embedding service
    although the store would have accepted it, and the file is reported with
    an error; the next file is processed and succeeds. *)
Lemma upload_pdfs_chunk_failure_skips_later_chunks :
  split_text_into_chunks two_chunk_text CHUNK_SIZE
  = Ok [py_str_mul "a" 2501; py_str_mul "b" 2500] ∧
  fst (upload_pdfs flaky_store_env [two_chunk_file; one_chunk_file] [])
  = Ok [FileError (Some "long.pdf")
          "500: Error adding document: store unavailable";
        FileSuccess (Some "short.pdf") 1
          [{| chunk_index := 0; chunk_id := "id-5" |}]] ∧
  was_embedded (py_str_mul "a" 2501)
    (snd (upload_pdfs flaky_store_env [two_chunk_file; one_chunk_file] []))
  = true ∧
  was_embedded (py_str_mul "b" 2500)
    (snd (upload_pdfs flaky_store_env [two_chunk_file; one_chunk_file] []))
  = false.
Proof. repeat split; vm_compute; reflexivity. Qed.

(** The spec's scenario: three files, the second without readable text. *)
Example upload_pdfs_three_files :
  fst (upload_pdfs (example_env []) [one_chunk_file; blank_file; one_chunk_file] [])
  = Ok [FileSuccess (Some "short.pdf") 1
          [{| chunk_index := 0; chunk_id := "id-1" |}];
        FileError (Some "blank.PDF") "No readable text found in PDF.";
        FileSuccess (Some "short.pdf") 1
          [{| chunk_index := 0; chunk_id := "id-5" |}]].
Proof. vm_compute. reflexivity. Qed.

(** * Further properties of the code *)

(** ** The chunker: sizes and counts *)

Lemma substring_length (n m : nat) (s : string) :
  String.length (String.substring n m s)
  = Nat.min m (String.length s - n).
Proof.
  revert n m. induction s as [|c s IH]; intros n m.
  - destruct n, m; simpl; lia.
  - destruct n as [|n].
    + destruct m as [|m]; simpl; [lia|]. specialize (IH O m). lia.
    + simpl. apply IH.
Qed.

Lemma nonempty_length_pos (text : string) :
  text ≠ "" → 0 < Z.of_nat (String.length text).
Proof. destruct text; [done | simpl; lia]. Qed.

Lemma adjusted_le_target (len chunk_size : Z) :
  0 < len → 0 < chunk_size →
  ceil_div len (ceil_div len chunk_size) ≤ chunk_size.
Proof.
  intros Hlen Hcs.
  pose proof (ceil_div_pos len chunk_size Hlen Hcs) as Hn.
  destruct (ceil_div_spec len chunk_size Hcs) as [_ Hhi].
  destruct (ceil_div_spec len (ceil_div len chunk_size) Hn) as [Hlo _].
  nia.
Qed.

Lemma count_is_num_chunks (len chunk_size : Z) :
  0 < len → 0 < chunk_size →
  ceil_div len (ceil_div len (ceil_div len chunk_size))
  = ceil_div len chunk_size.
Proof.
  intros Hlen Hcs.
  pose proof (ceil_div_pos len chunk_size Hlen Hcs) as Hn.
  pose proof (ceil_div_pos len _ Hlen Hn) as Hadj.
  pose proof (adjusted_le_target len chunk_size Hlen Hcs) as Hle.
  destruct (ceil_div_spec len chunk_size Hcs) as [Hlo Hhi].
  destruct (ceil_div_spec len (ceil_div len chunk_size) Hn) as [Hlo' Hhi'].
  apply ceil_div_unique; [done| |]; nia.
Qed.

(** X1: on a non-empty text, with a positive target size below
    [len * 2^1075], no chunk is longer than the target size: the adjusted
    size never exceeds the size asked for. *)
Theorem chunks_within_target (text : string) (chunk_size : Z) :
  text ≠ "" → 0 < chunk_size →
  chunk_size < Z.of_nat (String.length text) * underflow_bound →
  ∃ chunks,
    split_text_into_chunks text chunk_size = Ok chunks ∧
    Forall (fun chunk => Z.of_nat (String.length chunk) ≤ chunk_size) chunks.
Proof.
  intros Hne Hcs Hbound.
  destruct (split_nonempty text chunk_size Hne Hcs Hbound) as [Hadj Heq].
  pose proof (adjusted_le_target _ chunk_size (nonempty_length_pos text Hne) Hcs)
    as Hle.
  eexists. split; [exact Heq|].
  apply Forall_forall. intros chunk Hin.
  apply list_elem_of_In, in_map_iff in Hin. destruct Hin as (k & <- & _).
  rewrite substring_length. lia.
Qed.

Lemma chunks_within_target_witness :
  ∃ chunks,
    split_text_into_chunks "abcdefgh" 5 = Ok chunks ∧
    Forall (fun chunk => Z.of_nat (String.length chunk) ≤ 5) chunks.
Proof.
  apply (chunks_within_target "abcdefgh" 5); [discriminate | lia | reflexivity].
Defined.

(** X2: on a non-empty text, with a positive target size below
    [len * 2^1075], the number of chunks is [ceil(len / chunk_size)], the
    least number of pieces of at most [chunk_size] characters the text can
    be cut into. *)
Theorem chunk_count (text : string) (chunk_size : Z) :
  text ≠ "" → 0 < chunk_size →
  chunk_size < Z.of_nat (String.length text) * underflow_bound →
  ∃ chunks,
    split_text_into_chunks text chunk_size = Ok chunks ∧
    Z.of_nat (length chunks)
    = ceil_div (Z.of_nat (String.length text)) chunk_size.
Proof.
  intros Hne Hcs Hbound.
  destruct (split_nonempty text chunk_size Hne Hcs Hbound) as [Hadj Heq].
  pose proof (nonempty_length_pos text Hne) as Hlen.
  eexists. split; [exact Heq|].
  rewrite length_map, length_seq, count_is_num_chunks by done.
  pose proof (ceil_div_pos _ chunk_size Hlen Hcs). lia.
Qed.

Lemma chunk_count_witness :
  ∃ chunks,
    split_text_into_chunks "abcdefg" 3 = Ok chunks ∧
    Z.of_nat (length chunks) = ceil_div (Z.of_nat (String.length "abcdefg")) 3.
Proof.
  apply (chunk_count "abcdefg" 3); [discriminate | lia | reflexivity].
Defined.

(** X3: on a non-empty text, with a positive target size below
    [len * 2^1075], all the chunks but the last have the same length, the
    adjusted chunk size, and the last one is not empty and not longer than
    the others. *)
Theorem chunks_even (text : string) (chunk_size : Z) :
  text ≠ "" → 0 < chunk_size →
  chunk_size < Z.of_nat (String.length text) * underflow_bound →
  let adj := ceil_div (Z.of_nat (String.length text))
                      (ceil_div (Z.of_nat (String.length text)) chunk_size) in
  ∃ front last,
    split_text_into_chunks text chunk_size = Ok (front ++ [last])%list ∧
    Forall (fun chunk => Z.of_nat (String.length chunk) = adj) front ∧
    0 < Z.of_nat (String.length last) ≤ adj.
Proof.
  intros Hne Hcs Hbound adj.
  destruct (split_nonempty text chunk_size Hne Hcs Hbound) as [Hadj Heq].
  fold adj in Hadj, Heq.
  pose proof (nonempty_length_pos text Hne) as Hlen.
  set (len := Z.of_nat (String.length text)) in *.
  pose proof (ceil_div_pos len adj Hlen Hadj) as Hcnt.
  destruct (ceil_div_spec len adj Hadj) as [Hlo Hhi].
  destruct (Z.to_nat (ceil_div len adj)) as [|m] eqn:Hm; [lia|].
  rewrite seq_S, map_app in Heq. simpl in Heq.
  eexists _, _. split; [exact Heq|]. split.
  - apply Forall_forall. intros chunk Hin.
    apply list_elem_of_In, in_map_iff in Hin. destruct Hin as (k & <- & Hk).
    apply in_seq in Hk. rewrite substring_length. subst len. nia.
  - rewrite substring_length. subst len. nia.
Qed.

Lemma chunks_even_witness :
  ∃ front last,
    split_text_into_chunks "abcdefg" 3 = Ok (front ++ [last])%list ∧
    Forall (fun chunk => Z.of_nat (String.length chunk)
                         = ceil_div (Z.of_nat (String.length "abcdefg"))
                             (ceil_div (Z.of_nat (String.length "abcdefg")) 3))
           front ∧
    0 < Z.of_nat (String.length last)
    ≤ ceil_div (Z.of_nat (String.length "abcdefg"))
        (ceil_div (Z.of_nat (String.length "abcdefg")) 3).
Proof.
  apply (chunks_even "abcdefg" 3); [discriminate | lia | reflexivity].
Defined.

Lemma py_ceil_truediv_nonpositive (len chunk_size : Z) :
  0 ≤ len → chunk_size ≤ 0 →
  py_ceil_truediv len chunk_size = Raise ZeroDivisionError ∨
  py_ceil_truediv len chunk_size = Ok 0 ∨
  ∃ n, py_ceil_truediv len chunk_size = Ok n ∧ n < 0 ∧ - n ≤ len.
Proof.
  intros Hlen Hcs. unfold py_ceil_truediv.
  destruct (Z.eqb_spec chunk_size 0) as [?|Hcs0]; [by left|].
  destruct (rounds_to_zero len chunk_size); [by right; left|].
  destruct (Z.eq_dec (ceil_div len chunk_size) 0) as [->|Hn0];
    [by right; left|].
  right; right. eexists. split; [reflexivity|].
  unfold ceil_div in *.
  pose proof (Z.div_mod (- len) chunk_size Hcs0).
  pose proof (Z.mod_neg_bound (- len) chunk_size ltac:(lia)). nia.
Qed.

Lemma py_ceil_truediv_negative (len n : Z) :
  n < 0 → - n ≤ len →
  ∃ adj, py_ceil_truediv len n = Ok adj ∧ adj < 0.
Proof.
  intros Hn Hle. pose proof underflow_bound_large as Hlarge.
  unfold py_ceil_truediv, rounds_to_zero.
  destruct (Z.eqb_spec n 0) as [?|Hn0]; [lia|].
  destruct (Z.leb_spec (Z.abs len * underflow_bound) (Z.abs n)) as [Habs|_].
  { rewrite Z.abs_eq, Z.abs_neq in Habs by lia. nia. }
  eexists. split; [reflexivity|].
  unfold ceil_div.
  pose proof (Z.div_mod (- len) n Hn0).
  pose proof (Z.mod_neg_bound (- len) n ltac:(lia)). nia.
Qed.

(** X4: with a chunk size that is zero or negative the chunker never
    produces a chunk: it raises [ZeroDivisionError] or returns the empty
    list, whatever the text. *)
Theorem nonpositive_chunk_size_loses_text (text : string) (chunk_size : Z) :
  chunk_size ≤ 0 →
  split_text_into_chunks text chunk_size = Raise ZeroDivisionError ∨
  split_text_into_chunks text chunk_size = Ok [].
Proof.
  intros Hcs.
  unfold split_text_into_chunks.
  set (len := Z.of_nat (String.length text)).
  assert (Hlen : 0 ≤ len) by (subst len; lia).
  destruct (py_ceil_truediv_nonpositive len chunk_size Hlen Hcs)
    as [-> | [-> | (n & -> & Hn & Hle)]]; [by left | by left |].
  change (Ok n ≫= ?f) with (f n). cbv beta.
  destruct (py_ceil_truediv_negative len n Hn Hle) as (adj & -> & Hadj).
  simpl. unfold py_range, range_len.
  destruct (Z.eqb_spec adj 0) as [?|_]; [lia|]. simpl.
  destruct (Z.ltb_spec 0 adj) as [?|_]; [lia|].
  right.
  destruct (ceil_div_spec (0 - len) (- adj) ltac:(lia)) as [Hlo _].
  replace (Z.to_nat (ceil_div (0 - len) (- adj))) with O by nia.
  reflexivity.
Qed.

Lemma nonpositive_chunk_size_loses_text_witness :
  split_text_into_chunks "abcdefg" (-3) = Raise ZeroDivisionError ∨
  split_text_into_chunks "abcdefg" (-3) = Ok [].
Proof.
  apply (nonpositive_chunk_size_loses_text "abcdefg" (-3)). lia.
Defined.

Example split_negative_size_empty :
  split_text_into_chunks "abcdefg" (-3) = Ok [].
Proof. reflexivity. Qed.

Example split_large_negative_size_raises :
  split_text_into_chunks "abcdefg" (-30) = Raise ZeroDivisionError.
Proof. reflexivity. Qed.

(** ** The embedding gateway: when it succeeds *)

(** X5: the gateway returns a vector exactly when the request is answered
    with a 2xx status and a JSON object whose ["embedding"] is an object with
    a ["values"] that is not [null]; the vector is that value. *)
Theorem get_gemini_embedding_some
    (env : Env) (text : string) (tr : trace) (v : json) :
  fst (get_gemini_embedding env text tr) = Ok (Some v) ↔
  ∃ status fields inner,
    embed_post env tr text = PostResponse status (Some (JObj fields)) ∧
    200 ≤ status ≤ 299 ∧
    fields !! "embedding" = Some (JObj inner) ∧
    inner !! "values" = Some v ∧
    v ≠ JNull.
Proof.
  rewrite get_gemini_embedding_eq. split.
  - destruct (embed_post env tr text) as [e|status body]; simpl; [done|].
    unfold embedding_of_response, raise_for_status, response_json. simpl.
    destruct (Z.leb_spec 200 status); simpl; [|done].
    destruct (Z.leb_spec status 299); simpl; [|done].
    destruct body as [data|]; simpl; [|done].
    destruct data as [| | | | |fields]; simpl; try done.
    destruct (fields !! "embedding") as [emb|] eqn:Hemb; simpl; [|done].
    destruct emb as [| | | | |inner]; simpl; try done.
    destruct (inner !! "values") as [w|] eqn:Hval; simpl; [|done].
    intros Hv. exists status, fields, inner.
    destruct w; simpl in Hv; try done; injection Hv as <-; by repeat split.
  - intros (status & fields & inner & -> & Hst & Hemb & Hval & Hnull). simpl.
    unfold embedding_of_response, raise_for_status, response_json. simpl.
    destruct (Z.leb_spec 200 status); [|lia].
    destruct (Z.leb_spec status 299); [|lia]. simpl.
    rewrite Hemb. simpl. rewrite Hval. simpl. by destruct v.
Qed.

(** ** Adding a document *)

Lemma add_document_ok_inv (env : Env) (content : string) (tr tr' : trace)
    (r : AddDocumentResponse) :
  add_document env content tr = (Ok r, tr') →
  ∃ v tr1 names,
    get_gemini_embedding env content tr = (Ok v, tr1) ∧
    get_collections env (EvUuid4 :: tr1) = Ok names ∧
    r = {| add_status := "success"; add_id := uuid4 env tr1 |} ∧
    tr' = EvUpsert (COLLECTION_NAME env) (stored_point (uuid4 env tr1) v content)
          :: ensure_events env names (EvGetCollections :: EvUuid4 :: tr1).
Proof.
  intros Hrun.
  destruct (get_gemini_embedding_no_raise env content tr) as (v & tr1 & Hv).
  exists v, tr1.
  unfold add_document, try_except, call, lift, raise, print, call in Hrun.
  unfold mbind, M_bind, mret, M_ret in Hrun. rewrite Hv in Hrun.
  destruct (get_collections env (EvUuid4 :: tr1)) as [names|e] eqn:Hnames;
    [|done].
  exists names. split; [done|]. split; [done|].
  unfold ensure_events, stored_point, PointStruct in *.
  destruct v as [w|].
  - destruct (bool_decide (COLLECTION_NAME env ∈ names)).
    + destruct (PointStruct_validate env _ _ _); [|done]. simpl in Hrun.
      destruct (upsert env _ _ _); [|done].
      by injection Hrun as <- <-.
    + destruct (recreate_collection env _ _); [|done].
      destruct (PointStruct_validate env _ _ _); [|done]. simpl in Hrun.
      destruct (upsert env _ _ _); [|done].
      by injection Hrun as <- <-.
  - destruct (bool_decide (COLLECTION_NAME env ∈ names)); [done|].
    by destruct (recreate_collection env _ _).
Qed.

Lemma try_except_raise_inv {A} (body : M A) (f : exn → exn) (tr tr' : trace)
    (e : exn) :
  try_except body (fun e => raise (f e)) tr = (Raise e, tr') →
  ∃ cause, e = f cause.
Proof.
  unfold try_except, raise. destruct (body tr) as [[a|cause] tr0]; [done|].
  intros [= <- _]. by exists cause.
Qed.

(** The embedding gateway leaves the store alone. *)
Lemma get_gemini_embedding_upserts (env : Env) (text : string) (tr : trace) :
  upserts (snd (get_gemini_embedding env text tr)) = upserts tr.
Proof.
  rewrite get_gemini_embedding_eq.
  by destruct (post_result (embed_post env tr text) ≫= embedding_of_response).
Qed.

Lemma ensure_events_upserts (env : Env) (names : list string) (tr : trace) :
  upserts (ensure_events env names tr) = upserts tr.
Proof. unfold ensure_events. by destruct (bool_decide _). Qed.

(** X6: [add_document] answers with the status ["success"] or raises an
    [HTTPException] of status 500 whose detail starts with "Error adding
    document: "; no other exception leaves it. *)
Theorem add_document_success_or_500
    (env : Env) (content : string) (tr : trace) :
  (∃ r, fst (add_document env content tr) = Ok r ∧ add_status r = "success") ∨
  (∃ cause,
     fst (add_document env content tr)
     = Raise (HTTPException 500
                ("Error adding document: " +:+ str_exn env cause))).
Proof.
  destruct (add_document env content tr) as [[r|e] tr'] eqn:Hrun.
  - left. exists r. split; [done|].
    apply add_document_ok_inv in Hrun as (? & ? & ? & _ & _ & -> & _). done.
  - right. unfold add_document in Hrun.
    apply (try_except_raise_inv _
             (fun e => HTTPException 500
                         ("Error adding document: " +:+ str_exn env e)))
      in Hrun as [cause ->].
    by exists cause.
Qed.

(** X7: when [add_document] succeeds, the last thing it did is one upsert
    into the configured collection of a point that has the returned id and
    the payload [{"content": content}]; it upserted nothing else. *)
Theorem add_document_stores_content
    (env : Env) (content : string) (tr tr' : trace) (r : AddDocumentResponse) :
  add_document env content tr = (Ok r, tr') →
  ∃ vector rest,
    tr' = EvUpsert (COLLECTION_NAME env)
            {| point_id := add_id r; point_vector := vector;
               point_payload := {[ "content" := content ]} |} :: rest ∧
    upserts tr'
    = {| point_id := add_id r; point_vector := vector;
         point_payload := {[ "content" := content ]} |} :: upserts tr.
Proof.
  intros Hrun.
  apply add_document_ok_inv in Hrun as (v & tr1 & names & Hv & _ & -> & ->).
  eexists v, _. split; [reflexivity|].
  change (upserts (EvUpsert ?n ?p :: ?t)) with (p :: upserts t).
  rewrite ensure_events_upserts.
  change (upserts (EvGetCollections :: EvUuid4 :: tr1)) with (upserts tr1).
  pose proof (get_gemini_embedding_upserts env content tr) as Hu.
  rewrite Hv in Hu. simpl in Hu. by rewrite Hu.
Qed.

Lemma add_document_stores_content_witness :
  ∃ vector rest,
    [EvUpsert "doc" (stored_point "id-1"
                       (Some (JArr [JNum (1 # 2); JNum (1 # 4)])) "hello");
     EvGetCollections; EvUuid4; EvEmbedPost "hello"]
    = EvUpsert (COLLECTION_NAME (example_env []))
        {| point_id := add_id {| add_status := "success"; add_id := "id-1" |};
           point_vector := vector;
           point_payload := {[ "content" := "hello" ]} |} :: rest ∧
    upserts [EvUpsert "doc" (stored_point "id-1"
                               (Some (JArr [JNum (1 # 2); JNum (1 # 4)])) "hello");
             EvGetCollections; EvUuid4; EvEmbedPost "hello"]
    = {| point_id := add_id {| add_status := "success"; add_id := "id-1" |};
         point_vector := vector;
         point_payload := {[ "content" := "hello" ]} |} :: upserts [].
Proof.
  apply (add_document_stores_content (example_env []) "hello" []).
  reflexivity.
Defined.

(** X8: the collection is created lazily: once the collections are listed,
    [add_document] asks for the creation of the configured collection exactly
    when its name is not in the list, and then exactly once. *)
Theorem add_document_creates_collection_when_absent
    (env : Env) (content : string) (tr : trace) (names : list string) :
  get_collections env
    (EvUuid4 :: snd (get_gemini_embedding env content tr)) = Ok names →
  filter (fun ev => Is_true (is_recreate ev)) (snd (add_document env content tr))
  = ((if bool_decide (COLLECTION_NAME env ∈ names) then []
      else [EvRecreateCollection (COLLECTION_NAME env)])
     ++ filter (fun ev => Is_true (is_recreate ev)) tr)%list.
Proof.
  intros Hnames.
  destruct (get_gemini_embedding_no_raise env content tr) as (v & tr1 & Hv).
  assert (Htr1 : filter (fun ev => Is_true (is_recreate ev)) tr1
                 = filter (fun ev => Is_true (is_recreate ev)) tr).
  { rewrite get_gemini_embedding_eq in Hv.
    destruct (post_result (embed_post env tr content) ≫= embedding_of_response);
      injection Hv as _ <-; reflexivity. }
  rewrite Hv in Hnames. simpl in Hnames.
  unfold add_document, try_except, call, lift, raise, print, call.
  unfold mbind, M_bind, mret, M_ret. rewrite Hv, Hnames.
  destruct (bool_decide (COLLECTION_NAME env ∈ names));
    repeat match goal with
           | |- context [match ?r with Ok _ => _ | Raise _ => _ end] =>
               destruct r
           end;
    cbn [snd]; repeat (rewrite filter_cons; simpl); by rewrite Htr1.
Qed.

Lemma add_document_creates_collection_when_absent_witness :
  filter (fun ev => Is_true (is_recreate ev))
         (snd (add_document fresh_store_env "hello" []))
  = ((if bool_decide (COLLECTION_NAME fresh_store_env ∈ []) then []
      else [EvRecreateCollection (COLLECTION_NAME fresh_store_env)])
     ++ filter (fun ev => Is_true (is_recreate ev)) [])%list.
Proof.
  apply (add_document_creates_collection_when_absent fresh_store_env "hello" [] []).
  reflexivity.
Defined.

(** X9: after a failed embedding request [add_document] cannot succeed:
    it goes on without a vector (asks for an id, lists the collections,
    creates the collection if it is absent), the point is refused for its
    missing vector at the latest, and the handler raises its 500 without
    having upserted anything. *)
Theorem add_document_failed_embedding_gives_500
    (env : Env) (content : string) (tr : trace) :
  embedding_failure (embed_post env tr content) →
  (∃ cause,
     fst (add_document env content tr)
     = Raise (HTTPException 500
                ("Error adding document: " +:+ str_exn env cause))) ∧
  upserts (snd (add_document env content tr)) = upserts tr.
Proof.
  intros Hfail. apply embedding_failure_raises in Hfail as [e He].
  pose proof (get_gemini_embedding_eq env content tr) as Hv.
  rewrite He in Hv.
  unfold add_document, try_except, call, lift, raise, print, call.
  unfold mbind, M_bind, mret, M_ret. rewrite Hv. unfold PointStruct.
  destruct (get_collections env _) as [names|e1]; [|by split; [eexists|]].
  destruct (bool_decide (COLLECTION_NAME env ∈ names));
    [by split; [eexists|]|].
  destruct (recreate_collection env _ _); by split; [eexists|].
Qed.

Lemma add_document_failed_embedding_gives_500_witness :
  (∃ cause,
     fst (add_document
            (embedding_env (PostRaises (TransportError "connection refused")))
            "hello" [])
     = Raise (HTTPException 500
                ("Error adding document: "
                 +:+ str_exn
                       (embedding_env
                          (PostRaises (TransportError "connection refused")))
                       cause))) ∧
  upserts (snd (add_document
                  (embedding_env
                     (PostRaises (TransportError "connection refused")))
                  "hello" []))
  = upserts [].
Proof.
  apply (add_document_failed_embedding_gives_500
           (embedding_env (PostRaises (TransportError "connection refused")))
           "hello" []).
  simpl. apply failure_network.
Defined.

Example add_document_failed_embedding_example :
  add_document (embedding_env (PostResponse 503 None)) "hello" []
  = (Raise (HTTPException 500
              "Error adding document: 1 validation error for PointStruct"),
     [EvGetCollections; EvUuid4; EvPrint "status 503"; EvEmbedPost "hello"]).
Proof. reflexivity. Qed.

(** ** Searching: failures and what is left untouched *)

Lemma hit_results_no_payload (hits : list ScoredPoint) :
  Exists (fun hit => hit_payload hit = None) hits →
  hit_results hits = Raise AttributeError.
Proof.
  induction hits as [|hit hits IH]; intros Hex; [by inversion Hex|].
  simpl. unfold hit_result, payload_content.
  destruct (hit_payload hit) as [payload|] eqn:Hp; [|reflexivity].
  simpl. rewrite IH; [reflexivity|].
  inversion Hex as [? ? Hnone|]; [congruence | done].
Qed.

(** X10: one hit without a payload fails the whole search: the other hits
    are not returned and the handler raises a 500. *)
Theorem search_document_hit_without_payload
    (env : Env) (query : string) (limit : Z) (tr : trace)
    (hits : list ScoredPoint) :
  search_hits env query limit tr = Ok hits →
  Exists (fun hit => hit_payload hit = None) hits →
  fst (search_document env query limit tr)
  = Raise (HTTPException 500
             ("Search failed: " +:+ str_exn env AttributeError)).
Proof.
  intros Hhits Hex.
  destruct (search_document_eq env query limit tr) as (v & tr1 & Hv & Heq).
  unfold search_hits in Hhits. rewrite Hv in Hhits.
  rewrite Heq, Hhits. simpl. by rewrite (hit_results_no_payload hits Hex).
Qed.

Lemma search_document_hit_without_payload_witness :
  fst (search_document
         (example_env (example_hits
                       ++ [{| hit_id := "p5"; hit_score := (1 # 2)%Q;
                              hit_payload := None |}])%list)
         "what is alpha?" 5 [])
  = Raise (HTTPException 500
             ("Search failed: "
              +:+ str_exn (example_env []) AttributeError)).
Proof.
  apply (search_document_hit_without_payload
           (example_env (example_hits
                         ++ [{| hit_id := "p5"; hit_score := (1 # 2)%Q;
                                hit_payload := None |}])%list)
           "what is alpha?" 5 []
           (example_hits
            ++ [{| hit_id := "p5"; hit_score := (1 # 2)%Q;
                   hit_payload := None |}])%list).
  - reflexivity.
  - apply Exists_app. right. by apply Exists_cons_hd.
Defined.

Lemma get_gemini_embedding_writes (env : Env) (text : string) (tr : trace) :
  filter (fun ev => Is_true (is_write ev)) (snd (get_gemini_embedding env text tr))
  = filter (fun ev => Is_true (is_write ev)) tr.
Proof.
  rewrite get_gemini_embedding_eq.
  by destruct (post_result (embed_post env tr text) ≫= embedding_of_response).
Qed.

Lemma search_document_writes (env : Env) (query : string) (limit : Z)
    (tr : trace) :
  filter (fun ev => Is_true (is_write ev)) (snd (search_document env query limit tr))
  = filter (fun ev => Is_true (is_write ev)) tr.
Proof.
  destruct (search_document_eq env query limit tr) as (v & tr1 & Hv & Heq).
  pose proof (get_gemini_embedding_writes env query tr) as Hw.
  rewrite Hv in Hw. simpl in Hw. rewrite Heq.
  destruct (search env tr1 (COLLECTION_NAME env) v limit ≫= hit_results);
    cbn [snd]; rewrite filter_cons; simpl; exact Hw.
Qed.

(** X11: searching and answering only read the vector store: neither
    [search_document] nor [ask_question] upserts a point or creates a
    collection. *)
Theorem search_and_ask_never_write
    (env : Env) (query : string) (limit : Z) (tr : trace) :
  filter (fun ev => Is_true (is_write ev))
         (snd (search_document env query limit tr))
  = filter (fun ev => Is_true (is_write ev)) tr ∧
  filter (fun ev => Is_true (is_write ev)) (snd (ask_question env query tr))
  = filter (fun ev => Is_true (is_write ev)) tr.
Proof.
  split; [apply search_document_writes|].
  rewrite ask_question_eq, search_top_documents_eq.
  pose proof (search_document_writes env query 10 tr) as Hw.
  destruct (search_document env query 10 tr) as [[results|e] tr1];
    simpl in Hw; [|done].
  destruct (top_docs_of results) as [|doc docs]; [done|].
  cbv zeta.
  pose proof (generate_answer_with_gemini_trace env
                (build_prompt (context_of (doc :: docs)) query)
                (EvPrint (py_slice (context_of (doc :: docs)) 0 100)
                 :: EvPrint "context_text" :: tr1)) as Hg.
  destruct (generate_answer_with_gemini env _ _) as [[answer|e] tr3];
    simpl in Hg |- *; rewrite Hg; by repeat (rewrite filter_cons; simpl).
Qed.

(** X12: the retrieval helper never returns an empty string. *)
Theorem search_top_documents_nonempty_contents
    (env : Env) (query : string) (limit : Z) (tr tr' : trace)
    (docs : list string) :
  search_top_documents env query limit tr = (Ok docs, tr') →
  Forall (fun doc => doc ≠ "") docs.
Proof.
  rewrite search_top_documents_eq.
  destruct (search_document env query limit tr) as [[results|e] tr1]; [|done].
  intros [= <- _]. unfold top_docs_of.
  apply Forall_forall. intros doc Hin.
  apply list_elem_of_fmap in Hin as (r & -> & Hr).
  apply list_elem_of_filter in Hr as [Ht _].
  by apply str_truthy_nonempty.
Qed.

Lemma search_top_documents_nonempty_contents_witness :
  Forall (fun doc => doc ≠ "") ["alpha"; "beta"].
Proof.
  apply (search_top_documents_nonempty_contents
           (example_env example_hits) "what is alpha?" 10 []
           [EvSearch "doc" (Some (JArr [JNum (1 # 2); JNum (1 # 4)])) 10;
            EvEmbedPost "what is alpha?"]).
  reflexivity.
Defined.


(** X14: [ask_question] sends at most one request to the generation
    service, and sends it exactly when retrieval returned at least one
    document; a failed or empty retrieval costs no generation request. *)
Theorem ask_question_generation_requests
    (env : Env) (question : string) (tr : trace) :
  filter (fun ev => Is_true (is_generate ev)) (snd (ask_question env question tr))
  = (match fst (search_top_documents env question 10 tr) with
     | Ok (doc :: docs) =>
         [EvGeneratePost (build_prompt (context_of (doc :: docs)) question)]
     | _ => []
     end
     ++ filter (fun ev => Is_true (is_generate ev)) tr)%list.
Proof.
  rewrite ask_question_eq.
  pose proof (search_top_documents_trace env question 10 tr) as Htr.
  destruct (search_top_documents env question 10 tr) as [[top_docs|e] tr1];
    simpl in Htr |- *; [|done].
  destruct top_docs as [|doc docs]; [done|].
  cbv zeta.
  pose proof (generate_answer_with_gemini_trace env
                (build_prompt (context_of (doc :: docs)) question)
                (EvPrint (py_slice (context_of (doc :: docs)) 0 100)
                 :: EvPrint "context_text" :: tr1)) as Hg.
  destruct (generate_answer_with_gemini env _ _) as [[answer|e] tr3];
    simpl in Hg |- *; rewrite Hg;
    repeat (rewrite filter_cons; simpl); by rewrite Htr.
Qed.

(** X15: a limit that passes validation reaches the vector store
    unchanged: the search the endpoint issues carries exactly that limit
    and the configured collection name. *)
Theorem search_document_endpoint_passes_limit
    (env : Env) (query : string) (limit : Z) (tr : trace) :
  1 ≤ limit ≤ 50 →
  ∃ vector tr1,
    snd (search_document_endpoint env (Some query) (Some limit) tr)
    = EvSearch (COLLECTION_NAME env) vector limit :: tr1.
Proof.
  intros Hlimit. unfold search_document_endpoint, validate_int_query. simpl.
  destruct (Z.ltb_spec 0 limit); [|lia].
  destruct (Z.leb_spec limit 50); [|lia]. simpl.
  destruct (search_document_eq env query limit tr) as (v & tr1 & _ & Heq).
  rewrite Heq. exists v, tr1.
  by destruct (search env tr1 (COLLECTION_NAME env) v limit ≫= hit_results).
Qed.

Lemma search_document_endpoint_passes_limit_witness :
  ∃ vector tr1,
    snd (search_document_endpoint (example_env example_hits)
           (Some "what is alpha?") (Some 50) [])
    = EvSearch (COLLECTION_NAME (example_env example_hits)) vector 50 :: tr1.
Proof.
  apply (search_document_endpoint_passes_limit
           (example_env example_hits) "what is alpha?" 50 []).
  lia.
Defined.

(** ** Parsing the generated answer *)

Lemma stream_texts_carried (items : list json) (texts : list string) :
  Forall2 carries_text items texts →
  stream_texts items = Ok (map JStr texts).
Proof.
  induction 1 as [|item text items texts [Hhas Htext] _ IH]; [reflexivity|].
  simpl. rewrite Hhas. simpl. rewrite Htext. simpl. by rewrite IH.
Qed.

Lemma json_strings_map (texts : list string) :
  json_strings (map JStr texts) = Ok texts.
Proof.
  induction texts as [|text texts IH]; [reflexivity|].
  simpl. by rewrite IH.
Qed.

Lemma stream_texts_skip (before after : list json) (fields : gmap string json) :
  fields !! "candidates" = None →
  stream_texts (before ++ JObj fields :: after)%list
  = stream_texts (before ++ after)%list.
Proof.
  intros Hnone. induction before as [|item before IH]; simpl.
  - rewrite Hnone. by simpl.
  - destruct (json_contains "candidates" item) as [[|]|e]; simpl; [|done|done].
    destruct (candidate_text item); simpl; [|done]. by rewrite IH.
Qed.

(** X16: a 2xx streamed response whose chunks each carry a text is answered
    with the texts concatenated in the order of the chunks. *)
Theorem generate_answer_concatenates_stream
    (env : Env) (prompt : string) (tr : trace) (status : Z)
    (items : list json) (texts : list string) :
  generate_post env tr prompt = PostResponse status (Some (JArr items)) →
  200 ≤ status ≤ 299 →
  Forall2 carries_text items texts →
  fst (generate_answer_with_gemini env prompt tr)
  = Ok (JStr (py_join "" texts)).
Proof.
  intros Hpost Hst Hitems.
  unfold generate_answer_with_gemini, try_except, call, lift, raise.
  unfold mbind, M_bind. rewrite Hpost. simpl.
  unfold raise_for_status, response_json. simpl.
  destruct (Z.leb_spec 200 status); [|lia].
  destruct (Z.leb_spec status 299); [|lia]. simpl.
  rewrite (stream_texts_carried items texts Hitems). simpl.
  by rewrite json_strings_map.
Qed.

Lemma generate_answer_concatenates_stream_witness :
  fst (generate_answer_with_gemini
         (streaming_env [candidate_chunk "an "; candidate_chunk "answer"])
         "a prompt" [])
  = Ok (JStr (py_join "" ["an "; "answer"])).
Proof.
  apply (generate_answer_concatenates_stream
           (streaming_env [candidate_chunk "an "; candidate_chunk "answer"])
           "a prompt" [] 200
           [candidate_chunk "an "; candidate_chunk "answer"] ["an "; "answer"]).
  - reflexivity.
  - lia.
  - repeat constructor.
Defined.

(** X17: a chunk of a streamed response that is an object without a
    ["candidates"] key is skipped, it changes nothing in the answer; the same
    object as the whole response is an error. *)
Theorem parse_answer_chunk_without_candidates
    (before after : list json) (fields : gmap string json) :
  fields !! "candidates" = None →
  parse_answer (JArr (before ++ JObj fields :: after)%list)
  = parse_answer (JArr (before ++ after)%list) ∧
  parse_answer (JObj fields) = Raise (KeyError "candidates").
Proof.
  intros Hnone. split.
  - unfold parse_answer. by rewrite stream_texts_skip.
  - unfold parse_answer, candidate_text. simpl. by rewrite Hnone.
Qed.

Lemma parse_answer_chunk_without_candidates_witness :
  parse_answer (JArr ([candidate_chunk "a"]
                      ++ JObj {[ "usageMetadata" := JNull ]}
                      :: [candidate_chunk "b"])%list)
  = parse_answer (JArr ([candidate_chunk "a"] ++ [candidate_chunk "b"])%list) ∧
  parse_answer (JObj {[ "usageMetadata" := JNull ]})
  = Raise (KeyError "candidates").
Proof.
  apply (parse_answer_chunk_without_candidates
           [candidate_chunk "a"] [candidate_chunk "b"]
           {[ "usageMetadata" := JNull ]}).
  reflexivity.
Defined.

Example parse_answer_stream_example :
  parse_answer (JArr [candidate_chunk "a"; JObj {[ "usageMetadata" := JNull ]};
                      candidate_chunk "b"])
  = Ok (JStr "ab").
Proof. reflexivity. Qed.

(** ** Uploading: the checks before chunking *)

Lemma append_cons (c : ascii) (s t : string) :
  String c s +:+ t = String c (s +:+ t).
Proof. reflexivity. Qed.

Lemma py_lower_app (s t : string) :
  py_lower (s +:+ t) = py_lower s +:+ py_lower t.
Proof.
  induction s as [|c s IH]; [reflexivity|].
  rewrite append_cons. simpl. by rewrite IH, append_cons.
Qed.

Lemma substring_app_suffix (s t : string) :
  String.substring (String.length s) (String.length t) (s +:+ t) = t.
Proof.
  induction s as [|c s IH]; [apply substring_whole|].
  rewrite append_cons. simpl. exact IH.
Qed.

Lemma py_endswith_app (s suffix : string) :
  py_endswith (s +:+ suffix) suffix = true.
Proof.
  unfold py_endswith. rewrite append_length.
  destruct (Nat.leb_spec (String.length suffix)
              (String.length s + String.length suffix)); [|lia].
  replace (String.length s + String.length suffix - String.length suffix)%nat
    with (String.length s) by lia.
  rewrite substring_app_suffix. apply String.eqb_refl.
Qed.

(** X18: the extension check does not look at the case: a file name made
    of any stem followed by [.pdf] in any mix of upper and lower case passes
    [filename.lower().endswith(".pdf")]. *)
Theorem pdf_extension_any_case (stem extension : string) :
  py_lower extension = ".pdf" →
  py_endswith (py_lower (stem +:+ extension)) ".pdf" = true.
Proof.
  intros Hext. rewrite py_lower_app, Hext. apply py_endswith_app.
Qed.

Lemma pdf_extension_any_case_witness :
  py_endswith (py_lower ("Annual Report" +:+ ".PdF")) ".pdf" = true.
Proof.
  apply (pdf_extension_any_case "Annual Report" ".PdF"). reflexivity.
Defined.

Lemma py_lstrip_all_space (s : string) :
  all_space s = true → py_lstrip s = "".
Proof.
  induction s as [|c s IH]; [reflexivity|]. simpl.
  destruct (py_isspace c); [exact IH | discriminate].
Qed.

(** X19: a PDF whose extracted text is made of whitespace only is reported
    with "No readable text found in PDF."; nothing is embedded or stored for
    it. *)
Theorem upload_file_blank_text
    (env : Env) (file : UploadFile) (tr : trace) (name : string)
    (page_texts : list string) :
  filename file = Some name →
  py_endswith (py_lower name) ".pdf" = true →
  pages file = Ok page_texts →
  all_space (py_join "" page_texts) = true →
  upload_file env file tr
  = (Ok (FileError (Some name) "No readable text found in PDF."), tr).
Proof.
  intros Hname Hpdf Hpages Hblank.
  unfold upload_file, try_except, raise, lift.
  unfold mbind, M_bind, mret, M_ret.
  rewrite Hname, Hpdf, Hpages. simpl.
  unfold py_strip. rewrite (py_lstrip_all_space _ Hblank). reflexivity.
Qed.

Lemma upload_file_blank_text_witness :
  upload_file (example_env []) blank_file [EvUuid4]
  = (Ok (FileError (Some "blank.PDF") "No readable text found in PDF."),
     [EvUuid4]).
Proof.
  apply (upload_file_blank_text (example_env []) blank_file [EvUuid4]
           "blank.PDF" ["  "; nl]); reflexivity.
Defined.

(** ** Uploading: what reaches the store *)

Lemma split_single (text : string) :
  text ≠ "" → Z.of_nat (String.length text) ≤ CHUNK_SIZE →
  split_text_into_chunks text CHUNK_SIZE = Ok [text].
Proof.
  intros Hne Hle.
  destruct (split_nonempty text CHUNK_SIZE Hne ltac:(done)
              (default_size_no_underflow text Hne)) as [_ Heq].
  rewrite Heq. clear Heq.
  pose proof (nonempty_length_pos text Hne) as Hlen.
  set (len := Z.of_nat (String.length text)) in *.
  assert (Hnum : ceil_div len CHUNK_SIZE = 1)
    by (apply ceil_div_unique; unfold CHUNK_SIZE in *; lia).
  rewrite Hnum.
  assert (Hadj : ceil_div len 1 = len) by (apply ceil_div_unique; lia).
  rewrite Hadj.
  assert (Hcnt : ceil_div len len = 1) by (apply ceil_div_unique; lia).
  rewrite Hcnt. simpl. subst len. by rewrite Nat2Z.id, substring_whole.
Qed.

(** X20: a PDF whose text fits in one chunk is ingested by a single
    [add_document] of its whole text: the file succeeds with that one chunk
    id when the call succeeds, and is reported with the call's error when it
    fails. *)
Theorem upload_file_single_chunk
    (env : Env) (file : UploadFile) (tr : trace) (text : string) :
  file_text file text →
  Z.of_nat (String.length text) ≤ CHUNK_SIZE →
  upload_file env file tr
  = match add_document env text tr with
    | (Ok r, tr') =>
        (Ok (FileSuccess (filename file) 1
               [{| chunk_index := 0; chunk_id := add_id r |}]), tr')
    | (Raise e, tr') =>
        (Ok (FileError (filename file) (str_exn env e)), tr')
    end.
Proof.
  intros (name & page_texts & Hname & Hpdf & Hpages & -> & Htruthy) Hle.
  assert (Hne : py_join "" page_texts ≠ "").
  { intros Hempty. rewrite Hempty in Htruthy. discriminate Htruthy. }
  unfold upload_file, try_except, raise, lift.
  unfold mbind, M_bind, mret, M_ret.
  rewrite Hname, Hpdf, Hpages. simpl. rewrite Htruthy. simpl.
  rewrite (split_single _ Hne Hle). simpl. unfold mbind, M_bind.
  by destruct (add_document env (py_join "" page_texts) tr) as [[r|e] tr'].
Qed.

Lemma upload_file_single_chunk_witness :
  upload_file (example_env []) one_chunk_file []
  = match add_document (example_env []) "hello world" [] with
    | (Ok r, tr') =>
        (Ok (FileSuccess (filename one_chunk_file) 1
               [{| chunk_index := 0; chunk_id := add_id r |}]), tr')
    | (Raise e, tr') =>
        (Ok (FileError (filename one_chunk_file)
               (str_exn (example_env []) e)), tr')
    end.
Proof.
  apply (upload_file_single_chunk (example_env []) one_chunk_file []
           "hello world").
  - exists "short.pdf", ["hello "; "world"]. by repeat split.
  - unfold CHUNK_SIZE. simpl. lia.
Defined.

Lemma add_document_upserts (env : Env) (content : string) (tr tr' : trace)
    (r : AddDocumentResponse) :
  add_document env content tr = (Ok r, tr') →
  ∃ vector,
    upserts tr' = stored_point (add_id r) vector content :: upserts tr.
Proof.
  intros Hrun.
  apply add_document_ok_inv in Hrun as (v & tr1 & names & Hv & _ & -> & ->).
  exists v.
  change (upserts (EvUpsert ?n ?p :: ?t)) with (p :: upserts t).
  rewrite ensure_events_upserts.
  change (upserts (EvGetCollections :: EvUuid4 :: tr1)) with (upserts tr1).
  pose proof (get_gemini_embedding_upserts env content tr) as Hu.
  rewrite Hv in Hu. simpl in Hu. by rewrite Hu.
Qed.

(** X21: when the chunk loop succeeds, the points it has upserted are, in
    order, one per chunk: the ids are the chunk ids of the report and the
    payloads hold the chunks' texts. *)
Theorem upload_chunks_stores_chunks
    (env : Env) (chunks : list string) (idx : Z) (tr tr' : trace)
    (entries : list ChunkResult) :
  upload_chunks env idx chunks tr = (Ok entries, tr') →
  ∃ points,
    upserts tr' = (rev points ++ upserts tr)%list ∧
    map point_id points = map chunk_id entries ∧
    map point_payload points
    = map (fun chunk => ({[ "content" := chunk ]} : gmap string string)) chunks.
Proof.
  revert idx tr tr' entries.
  induction chunks as [|chunk chunks IH]; intros idx tr tr' entries Hrun.
  - injection Hrun as <- <-. by exists [].
  - simpl in Hrun. unfold mbind, M_bind in Hrun.
    destruct (add_document env chunk tr) as [[added|e] tr1] eqn:Hadd; [|done].
    destruct (upload_chunks env (idx + 1) chunks tr1) as [[rest|e] tr2] eqn:Hrest;
      [|done].
    injection Hrun as <- <-.
    destruct (add_document_upserts env _ _ _ _ Hadd) as [v Hup].
    destruct (IH _ _ _ _ Hrest) as (points & Hpoints & Hids & Hpayloads).
    exists (stored_point (add_id added) v chunk :: points).
    split; [|split].
    + rewrite Hpoints, Hup. simpl. by rewrite <- app_assoc.
    + simpl. by rewrite Hids.
    + simpl. by rewrite Hpayloads.
Qed.

Lemma upload_chunks_stores_chunks_witness :
  ∃ points,
    upserts (snd (upload_chunks (example_env []) 0 ["one"; "two"] []))
    = (rev points ++ upserts [])%list ∧
    map point_id points
    = map chunk_id [{| chunk_index := 0; chunk_id := "id-1" |};
                    {| chunk_index := 1; chunk_id := "id-5" |}] ∧
    map point_payload points
    = map (fun chunk => ({[ "content" := chunk ]} : gmap string string))
          ["one"; "two"].
Proof.
  apply (upload_chunks_stores_chunks (example_env []) ["one"; "two"] 0 []).
  reflexivity.
Defined.

(** ** The blank-text check *)

Lemma all_space_rev_app (s acc : string) :
  all_space (String.rev_app s acc) = all_space s && all_space acc.
Proof.
  revert acc. induction s as [|c s IH]; intros acc; [reflexivity|].
  simpl. rewrite IH. simpl. by destruct (py_isspace c), (all_space s).
Qed.

Lemma all_space_lstrip (s : string) :
  all_space (py_lstrip s) = all_space s.
Proof.
  induction s as [|c s IH]; [reflexivity|]. simpl.
  destruct (py_isspace c) eqn:Hc; [exact IH|]. simpl. by rewrite Hc.
Qed.

Lemma py_lstrip_empty (s : string) :
  py_lstrip s = "" → all_space s = true.
Proof.
  intros Hempty. rewrite <- all_space_lstrip, Hempty. reflexivity.
Qed.

Lemma rev_app_nonempty (s acc : string) :
  acc ≠ "" → String.rev_app s acc ≠ "".
Proof.
  revert acc. induction s as [|c s IH]; intros acc Hacc; [done|].
  simpl. by apply IH.
Qed.

Lemma rev_empty (s : string) : String.rev s = "" → s = "".
Proof.
  destruct s as [|c s]; [done|]. unfold String.rev. simpl.
  intros Hrev. by apply rev_app_nonempty in Hrev.
Qed.

(** X22: the blank-text check of the upload rejects exactly the texts made
    of whitespace only: [full_text.strip()] is falsy if and only if every
    character of the text is a whitespace character. *)
Theorem blank_check_is_all_whitespace (text : string) :
  str_truthy (py_strip text) = negb (all_space text).
Proof.
  destruct (all_space text) eqn:Hspace.
  - unfold py_strip. by rewrite (py_lstrip_all_space text Hspace).
  - unfold str_truthy. destruct (String.eqb_spec (py_strip text) "") as [He|];
      [|reflexivity].
    unfold py_strip in He. apply rev_empty, py_lstrip_empty in He.
    unfold String.rev in He. rewrite all_space_rev_app, all_space_lstrip in He.
    rewrite Hspace in He. discriminate He.
Qed.

(** ** Search results follow the hits *)

(** X23: when the store answers with hits that all carry a payload,
    [search_document] returns one result per hit, in the store's order, with
    the ids and the scores the store gave. *)
Theorem search_document_keeps_ids_and_scores
    (env : Env) (query : string) (limit : Z) (tr : trace)
    (hits : list ScoredPoint) :
  search_hits env query limit tr = Ok hits →
  Forall has_payload hits →
  ∃ results,
    fst (search_document env query limit tr) = Ok results ∧
    map res_id results = map hit_id hits ∧
    map res_score results = map hit_score hits ∧
    map res_content results = map hit_content hits.
Proof.
  intros Hhits Hpay.
  destruct (search_document_ok env query limit tr hits Hhits Hpay) as [tr' Hs].
  exists (map result_of_hit hits). rewrite Hs.
  by rewrite !map_map.
Qed.

Lemma search_document_keeps_ids_and_scores_witness :
  ∃ results,
    fst (search_document (example_env example_hits) "what is alpha?" 5 [])
    = Ok results ∧
    map res_id results = map hit_id example_hits ∧
    map res_score results = map hit_score example_hits ∧
    map res_content results = map hit_content example_hits.
Proof.
  apply (search_document_keeps_ids_and_scores
           (example_env example_hits) "what is alpha?" 5 [] example_hits).
  - reflexivity.
  - repeat constructor; by eexists.
Defined.
